(** * cli.py: ingestion of HTML sources and local PDFs into JSON records

  A shallow embedding of [cli.py] and the properties of its scraping
  pipeline.

  The program is glue code around five libraries (requests, BeautifulSoup
  with its CSS engine soupsieve, urllib's [urljoin], pdfminer, uuid) and the
  operating system.  Their behaviour is not part of the program: it is
  gathered in the record [World], one field per library entry point the
  program calls, and every definition of the program takes a [World].
  Python's own string operations, [os.path] (POSIX flavour) and
  [json.dumps] are written out.

  Strings are byte strings; a Python [str] is read as its UTF-8 encoding. *)

From Stdlib Require Import String Ascii List ZArith Lia Bool Arith.
From Stdlib Require DecimalString.
From Stdlib Require Import Sorted Permutation.
Import ListNotations.
Open Scope string_scope.

(** ** Python strings *)

Module Py.

(** [s.startswith(p)] *)
Definition startswith (s p : string) : bool := String.prefix p s.

(** [s.endswith(suf)] *)
Definition endswith (s suf : string) : bool :=
  (String.length suf <=? String.length s)%nat &&
  String.eqb
    (String.substring (String.length s - String.length suf)
                      (String.length suf) s)
    suf.

(** [c.lower()] on one character; only the ASCII letters have a lower-case
    form that is an ASCII character, which is all [endswith(".pdf")] can
    see. *)
Definition lower_ascii (c : ascii) : ascii :=
  let n := nat_of_ascii c in
  if ((65 <=? n) && (n <=? 90))%nat then ascii_of_nat (n + 32) else c.

Fixpoint lower (s : string) : string :=
  match s with
  | EmptyString => EmptyString
  | String c r => String (lower_ascii c) (lower r)
  end.

(** [sep.join(parts)] *)
Definition join (sep : string) (parts : list string) : string :=
  String.concat sep parts.

(** [sub in s] *)
Definition contains (s sub : string) : bool :=
  match String.index 0 sub s with
  | Some _ => true
  | None => false
  end.

(** The truth value of a string: [if href:] *)
Definition truthy (s : string) : bool :=
  match s with EmptyString => false | String _ _ => true end.

(** [sorted(names)] on strings: insertion into an ordered list, by the
    order of the code points. *)
Fixpoint insert_sorted (x : string) (l : list string) : list string :=
  match l with
  | [] => [x]
  | y :: r => if String.leb x y then x :: y :: r else y :: insert_sorted x r
  end.

Definition sorted (l : list string) : list string :=
  fold_right insert_sorted [] l.

Definition nl : string := String "010"%char EmptyString.
Definition dquote : string := String "034"%char EmptyString.

End Py.

(** ** os.path, POSIX *)

Module OsPath.

Fixpoint has_slash (p : string) : bool :=
  match p with
  | EmptyString => false
  | String c r => Ascii.eqb c "/"%char || has_slash r
  end.

(** [os.path.basename(p)]: the part of [p] after its last slash. *)
Fixpoint basename (p : string) : string :=
  match p with
  | EmptyString => EmptyString
  | String c r =>
      if has_slash r then basename r
      else if Ascii.eqb c "/"%char then r
      else String c r
  end.

(** [os.path.join(a, b)] *)
Definition join (a b : string) : string :=
  if Py.startswith b "/" then b
  else if negb (Py.truthy a) || Py.endswith a "/" then a ++ b
  else a ++ "/" ++ b.

End OsPath.

(** ** Exceptions and results *)

Inductive exn : Type :=
| RequestException (url : string)
| HTTPError (url : string) (status_code : Z)
| OSError (path : string)
| PDFException (path : string)
| SelectorSyntaxError (selector : string).

(** A call that returns a value or raises. *)
Definition Result (A : Type) : Type := (exn + A)%type.

Definition ok {A} (a : A) : Result A := inr a.
Definition throw {A} (e : exn) : Result A := inl e.

Definition rbind {A B} (r : Result A) (k : A -> Result B) : Result B :=
  match r with
  | inl e => inl e
  | inr a => k a
  end.

Definition is_ok {A} (r : Result A) : bool :=
  match r with inl _ => false | inr _ => true end.

(** ** JSON records *)

(** The values the program stores in a record: a string or [None]. *)
Inductive jvalue : Type :=
| JNull
| JStr (s : string).

(** A Python [dict] with string keys, in insertion order. *)
Definition dict : Type := list (string * jvalue).

Definition of_option (o : option string) : jvalue :=
  match o with
  | None => JNull
  | Some s => JStr s
  end.

Definition has_key (k : string) (d : dict) : bool :=
  existsb (fun kv => String.eqb (fst kv) k) d.

Fixpoint lookup (k : string) (d : dict) : option jvalue :=
  match d with
  | [] => None
  | (k', v) :: r => if String.eqb k' k then Some v else lookup k r
  end.

Definition keys (d : dict) : list string := map fst d.

Module Json.

Definition hex_digit (n : nat) : ascii :=
  if (n <? 10)%nat then ascii_of_nat (48 + n) else ascii_of_nat (87 + n).

(** [json.encoder.py_encode_basestring]: what [ensure_ascii=False]
    escapes. *)
Definition escape_char (c : ascii) : string :=
  let n := nat_of_ascii c in
  if (n =? 34)%nat then "\" ++ Py.dquote
  else if (n =? 92)%nat then "\\"
  else if (n =? 10)%nat then "\n"
  else if (n =? 13)%nat then "\r"
  else if (n =? 9)%nat then "\t"
  else if (n =? 8)%nat then "\b"
  else if (n =? 12)%nat then "\f"
  else if (n <? 32)%nat then
    "\u00" ++ String (hex_digit (n / 16)) (String (hex_digit (n mod 16)) "")
  else String c "".

Fixpoint escape (s : string) : string :=
  match s with
  | EmptyString => EmptyString
  | String c r => escape_char c ++ escape r
  end.

Definition dumps_str (s : string) : string :=
  Py.dquote ++ escape s ++ Py.dquote.

Definition dumps_value (v : jvalue) : string :=
  match v with
  | JNull => "null"
  | JStr s => dumps_str s
  end.

Definition dumps_item (kv : string * jvalue) : string :=
  dumps_str (fst kv) ++ ": " ++ dumps_value (snd kv).

(** [json.dumps(rec, ensure_ascii=False)] *)
Definition dumps (d : dict) : string :=
  "{" ++ Py.join ", " (map dumps_item d) ++ "}".

End Json.

(** ** The libraries and the operating system *)

Record Response : Type := {
  status_code : Z;
  text : string
}.

(** One state of the libraries and of the operating system.  It does not
    change while the program runs: a URL that is fetched twice gives the
    same response, a file that is read twice the same bytes.  The only
    thing that changes is the number of identifiers drawn from [uuid4]. *)
Record World : Type := {
  (** bs4: a parsed document and every element of it are a [Tag] *)
  tag : Type;
  (** [requests.get(url)] *)
  requests_get : string -> Result Response;
  (** [BeautifulSoup(markup, "html.parser")] *)
  BeautifulSoup : string -> tag;
  (** soupsieve: whether a selector compiles, and the elements below a tag
      that match it, each once, in document order *)
  sv_valid : string -> bool;
  sv_select : string -> tag -> list tag;
  (** [tag.find(name)]: the first element below [tag] named [name] *)
  find : tag -> string -> option tag;
  (** [tag.get_text(strip=True)] *)
  get_text : tag -> string;
  (** [tag.get(attr)]; [tag.has_attr(attr)] is whether it is there and
      [tag[attr]] its value *)
  get : tag -> string -> option string;
  (** [requests.compat.urljoin(base, url)] *)
  urljoin : string -> string -> string;
  (** [open(path, "rb").read()] *)
  open_read : string -> Result string;
  (** [pdfminer.high_level.extract_text(path)] *)
  extract_text : string -> Result string;
  (** [str(uuid.uuid4())]: the identifier handed out by the n-th call of the
      process *)
  uuid4 : nat -> string;
  (** [os.path.isdir], [os.listdir] *)
  isdir : string -> bool;
  listdir : string -> Result (list string)
}.

(** ** Computations *)

(** A method call: it may raise, and it may draw identifiers; the state is
    the number of identifiers drawn so far. *)
Definition M (A : Type) : Type := nat -> Result A * nat.

Definition ret {A} (a : A) : M A := fun s => (inr a, s).

Definition lift {A} (r : Result A) : M A := fun s => (r, s).

Definition bind {A B} (m : M A) (k : A -> M B) : M B :=
  fun s =>
    match m s with
    | (inl e, s') => (inl e, s')
    | (inr a, s') => k a s'
    end.

Definition fresh_uuid (W : World) : M string :=
  fun s => (inr (uuid4 W s), S s).

Notation "x <- m ;; k" := (bind m (fun x => k))
  (at level 61, m at next level, right associativity).

(** A generator or a command: it emits values one after the other (yields
    records, echoes lines) and then ends, normally or by an exception that
    nothing catches.  What was emitted before the exception stays emitted:
    [typer.echo] has written it already. *)
Definition Proc (X : Type) : Type := nat -> list X * option exn * nat.

Definition done {X} : Proc X := fun s => ([], None, s).

Definition emit {X} (x : X) : Proc X := fun s => ([x], None, s).

Definition raise {X} (e : exn) : Proc X := fun s => ([], Some e, s).

Definition andthen {X} (p q : Proc X) : Proc X :=
  fun s =>
    match p s with
    | (xs, Some e, s') => (xs, Some e, s')
    | (xs, None, s') =>
        match q s' with
        | (ys, o, s'') => ((xs ++ ys)%list, o, s'')
        end
    end.

(** [for a in l: body(a)] *)
Fixpoint for_each {A X} (l : list A) (body : A -> Proc X) : Proc X :=
  match l with
  | [] => done
  | a :: r => andthen (body a) (for_each r body)
  end.

(** Evaluate a call, go on with its value or stop with its exception. *)
Definition try_result {A X} (r : Result A) (k : A -> Proc X) : Proc X :=
  match r with
  | inl e => raise e
  | inr a => k a
  end.

Definition try_call {A X} (m : M A) (k : A -> Proc X) : Proc X :=
  fun s =>
    match m s with
    | (inl e, s') => ([], Some e, s')
    | (inr a, s') => k a s'
    end.

(** [for x in gen: typer.echo(f(x))] *)
Definition echo_each {X} (f : X -> string) (gen : Proc X) : Proc string :=
  fun s =>
    match gen s with
    | (xs, o, s') => (map f xs, o, s')
    end.

Definition emitted {X} (r : list X * option exn * nat) : list X :=
  fst (fst r).
Definition outcome {X} (r : list X * option exn * nat) : option exn :=
  snd (fst r).
Definition final {X} (r : list X * option exn * nat) : nat :=
  snd r.

(** ** bs4 and requests: what the library does around the entry points *)

Module Bs4.
Section WithWorld.
Context (W : World).

(** [tag.select(selector)]: soupsieve raises on a selector it cannot
    compile. *)
Definition select (t : tag W) (selector : string) : Result (list (tag W)) :=
  if sv_valid W selector then ok (sv_select W selector t)
  else throw (SelectorSyntaxError selector).

(** [tag.select_one(selector)]: the first match, or [None]. *)
Definition select_one (t : tag W) (selector : string)
  : Result (option (tag W)) :=
  rbind (select t selector) (fun l => ok (hd_error l)).

End WithWorld.
End Bs4.

Module Requests.

(** [resp.raise_for_status()]: a status from 400 to 599 is an error. *)
Definition raise_for_status (url : string) (resp : Response) : Result unit :=
  if ((400 <=? status_code resp) && (status_code resp <? 600))%Z
  then throw (HTTPError url (status_code resp))
  else ok tt.

End Requests.

(** ** class BaseScraper *)

(** The four methods a subclass overrides; [page_content] is what its
    [fetch_page] returns. *)
Record Scraper : Type := {
  page_content : Type;
  list_pages : list string;
  fetch_page : string -> Result page_content;
  parse_items : page_content -> Result (list string);
  extract_content : string -> M dict
}.

Module BaseScraper.

Definition run (self : Scraper) : Proc dict :=
  for_each (list_pages self) (fun page =>
    try_result (fetch_page self page) (fun content =>
      try_result (parse_items self content) (fun items =>
        for_each items (fun item =>
          try_call (extract_content self item) emit)))).

End BaseScraper.

(** ** class HtmlScraper *)

Module HtmlScraper.
Section Methods.
Context (W : World).
Variables (start_url list_selector link_selector : string).

Definition list_pages : list string := [start_url].

Definition fetch_page (url : string) : Result string :=
  rbind (requests_get W url) (fun resp =>
  rbind (Requests.raise_for_status url resp) (fun _ =>
  ok (text resp))).

(** What one anchor adds to [items]. *)
Definition append_item (items : list string) (a : tag W) : list string :=
  match get W a "href" with
  | Some href =>
      if Py.truthy href then
        items ++ [if Py.startswith href "http" then href
                  else urljoin W start_url href]
      else items
  | None => items
  end.

Definition parse_items (page_content : string) : Result (list string) :=
  let soup := BeautifulSoup W page_content in
  rbind (Bs4.select W soup (list_selector ++ " " ++ link_selector))
    (fun anchors => ok (fold_left append_item anchors [])).

Definition extract_content (item_url : string) : M dict :=
  html <- lift (fetch_page item_url) ;;
  let soup := BeautifulSoup W html in
  let title :=
    match find W soup "h1" with
    | Some h1 => Some (get_text W h1)
    | None => None
    end in
  let time_tag := find W soup "time" in
  let date :=
    match time_tag with
    | Some t =>
        match get W t "datetime" with
        | Some d => Some d
        | None => None
        end
    | None => None
    end in
  found <- lift (Bs4.select_one W soup ".author") ;;
  let author :=
    match found with
    | Some a => Some (get_text W a)
    | None => None
    end in
  ps <- lift (Bs4.select W soup "article p, .post-content p, .content p") ;;
  let paragraphs := map (get_text W) ps in
  let content := Py.join (Py.nl ++ Py.nl) paragraphs in
  id <- fresh_uuid W ;;
  ret [ ("id", JStr id);
        ("source", JStr start_url);
        ("url", JStr item_url);
        ("title", of_option title);
        ("author", of_option author);
        ("date", of_option date);
        ("content", JStr content) ].

Definition init : Scraper :=
  Build_Scraper string list_pages fetch_page parse_items extract_content.

End Methods.
End HtmlScraper.

(** ** class PDFScraper *)

Module PDFScraper.
Section Methods.
Context (W : World).
Variable (pdf_path : string).

Definition list_pages : list string := [pdf_path].

Definition fetch_page (path : string) : Result string :=
  open_read W path.

Definition parse_items (page_content : string) : Result (list string) :=
  ok [pdf_path].

Definition extract_content (item : string) : M dict :=
  text <- lift (extract_text W item) ;;
  id <- fresh_uuid W ;;
  ret [ ("id", JStr id);
        ("source", JStr (OsPath.basename item));
        ("content", JStr text) ].

Definition init : Scraper :=
  Build_Scraper string list_pages fetch_page parse_items extract_content.

End Methods.
End PDFScraper.

(** ** The catalog *)

Record Source : Type := {
  src_name : string;
  src_type : string;
  src_start_url : string;
  src_list_sel : string;
  src_link_sel : string
}.

Definition PREDEFINED_SOURCES : list Source :=
  [ {| src_name := "interviewing_blog";
       src_type := "html";
       src_start_url := "https://interviewing.io/blog";
       src_list_sel := "h1";
       src_link_sel := "a" |};
    {| src_name := "company_guides";
       src_type := "html";
       src_start_url := "https://interviewing.io/topics#companies";
       src_list_sel := ".markdown-content";
       src_link_sel := "a[href*='/topics/']" |};
    {| src_name := "interview_guides";
       src_type := "html";
       src_start_url := "https://interviewing.io/learn#interview-guides";
       src_list_sel := ".markdown-content";
       src_link_sel := "a[href*='/learn/']" |};
    {| src_name := "nil_dsablog";
       src_type := "html";
       src_start_url := "https://nilmamano.com/blog/category/dsa";
       src_list_sel := "article";
       src_link_sel := "a" |} ].

Definition PDF_FOLDER : string := "data/pdfs".

(** ** The commands *)

Section Commands.
Context (W : World).

Definition echo_records (scraper : Scraper) : Proc string :=
  echo_each Json.dumps (BaseScraper.run scraper).

Definition scrape_html (start_url list_sel link_sel : string) : Proc string :=
  let scraper := HtmlScraper.init W start_url list_sel link_sel in
  echo_records scraper.

Definition scrape_pdf (pdf_path : string) : Proc string :=
  let scraper := PDFScraper.init W pdf_path in
  echo_records scraper.

Definition html_marker (src : Source) : string :=
  "--- SCRAPING " ++ src_name src ++ " (" ++ src_start_url src ++ ") ---".

Definition pdf_marker (fname : string) : string :=
  "--- SCRAPING PDF " ++ fname ++ " ---".

Definition pdf_folder_not_found : string :=
  "PDF folder not found: " ++ PDF_FOLDER.

(** The body of the loop over the sources, and the loop, for any list of
    sources. *)
Definition scrape_source (src : Source) : Proc string :=
  andthen (emit (html_marker src))
    (let scraper :=
       HtmlScraper.init W (src_start_url src) (src_list_sel src)
                        (src_link_sel src) in
     echo_records scraper).

Definition scrape_sources (sources : list Source) : Proc string :=
  for_each sources scrape_source.

Definition scrape_pdf_file (fname : string) : Proc string :=
  if Py.endswith (Py.lower fname) ".pdf" then
    let path := OsPath.join PDF_FOLDER fname in
    andthen (emit (pdf_marker fname))
      (let scraper := PDFScraper.init W path in
       echo_records scraper)
  else done.

Definition scrape_pdfs : Proc string :=
  if isdir W PDF_FOLDER then
    try_result (listdir W PDF_FOLDER) (fun names =>
      for_each (Py.sorted names) scrape_pdf_file)
  else emit pdf_folder_not_found.

Definition scrape_all : Proc string :=
  andthen (scrape_sources PREDEFINED_SOURCES) scrape_pdfs.

End Commands.

(** ** A small world to run the program in

    Documents are trees, selectors are lists of descendant chains of type,
    class and attribute-substring selectors, the network and the disk are
    tables.  The statements below hold in every [World]; this one is
    where they are run on concrete pages. *)

Module Fixture.

#[warnings="-register-all"] Inductive node : Type :=
| Text (s : string)
| Elem (name : string) (attrs : list (string * string)) (children : list node).

Definition document (children : list node) : node :=
  Elem "[document]" [] children.

Definition attr (n : node) (a : string) : option string :=
  match n with
  | Text _ => None
  | Elem _ attrs _ =>
      match List.find (fun kv => String.eqb (fst kv) a) attrs with
      | Some kv => Some (snd kv)
      | None => None
      end
  end.

Definition is_named (name : string) (n : node) : bool :=
  match n with
  | Text _ => false
  | Elem name' _ _ => String.eqb name' name
  end.

(** The elements below a node, in document order. *)
Fixpoint descendants (n : node) : list node :=
  match n with
  | Text _ => []
  | Elem _ _ cs =>
      flat_map (fun c =>
        match c with
        | Text _ => []
        | Elem _ _ _ => c :: descendants c
        end) cs
  end.

(** The elements below a node, each with its ancestors, nearest first. *)
Fixpoint with_ancestors (up : list node) (n : node)
  : list (node * list node) :=
  match n with
  | Text _ => []
  | Elem _ _ cs =>
      flat_map (fun c =>
        match c with
        | Text _ => []
        | Elem _ _ _ => (c, n :: up) :: with_ancestors (n :: up) c
        end) cs
  end.

Fixpoint all_text (n : node) : string :=
  match n with
  | Text s => s
  | Elem _ _ cs => String.concat "" (map all_text cs)
  end.

Definition find_first (t : node) (name : string) : option node :=
  List.find (is_named name) (descendants t).

(** Splitting at a character. *)
Fixpoint split_at (sep : ascii) (cur : string) (s : string) : list string :=
  match s with
  | EmptyString => [cur]
  | String c r =>
      if Ascii.eqb c sep then cur :: split_at sep "" r
      else split_at sep (cur ++ String c "") r
  end.

Definition words (s : string) : list string :=
  filter Py.truthy (split_at " "%char "" s).

Definition has_class (c : string) (n : node) : bool :=
  match attr n "class" with
  | Some v => existsb (String.eqb c) (words v)
  | None => false
  end.

(** A simple selector: [name] or [.class], with or without an attribute
    test [[attr*='value']], or the attribute test alone. *)
Definition ident_char (c : ascii) : bool :=
  let n := nat_of_ascii c in
  ((97 <=? n) && (n <=? 122) || (65 <=? n) && (n <=? 90) ||
   (48 <=? n) && (n <=? 57) || (n =? 45) || (n =? 95))%nat.

Fixpoint ident (s : string) : bool :=
  match s with
  | EmptyString => true
  | String c r => ident_char c && ident r
  end.

Record simple : Type := {
  base : string;
  attr_test : option (string * string)
}.

Definition parse_test (inner : string) : option (string * string) :=
  match String.index 0 "*='" inner with
  | None => None
  | Some j =>
      let a := String.substring 0 j inner in
      let rest := String.substring (j + 3) (String.length inner - j - 3)
                                   inner in
      if Py.truthy a && ident a && Py.endswith rest "']"
      then Some (a, String.substring 0 (String.length rest - 2) rest)
      else None
  end.

Definition parse_simple (tok : string) : option simple :=
  match String.index 0 "[" tok with
  | None => Some {| base := tok; attr_test := None |}
  | Some i =>
      match parse_test (String.substring (i + 1) (String.length tok - i - 1)
                                         tok) with
      | Some t => Some {| base := String.substring 0 i tok; attr_test := Some t |}
      | None => None
      end
  end.

Definition base_valid (b : string) (tested : bool) : bool :=
  match b with
  | EmptyString => tested
  | String "."%char r => Py.truthy r && ident r
  | _ => ident b
  end.

Definition base_matches (b : string) (n : node) : bool :=
  match b with
  | EmptyString => true
  | String "."%char r => has_class r n
  | _ => is_named b n
  end.

Definition simple_valid (tok : string) : bool :=
  match parse_simple tok with
  | Some p => base_valid (base p)
                         (match attr_test p with Some _ => true | None => false end)
  | None => false
  end.

Definition simple_matches (tok : string) (n : node) : bool :=
  match parse_simple tok with
  | Some p =>
      base_matches (base p) n &&
      match attr_test p with
      | Some (a, v) =>
          match attr n a with
          | Some x => Py.contains x v
          | None => false
          end
      | None => true
      end
  | None => false
  end.

(** A descendant chain, last selector first, against a node's ancestors. *)
Fixpoint chain_above (rchain : list string) (up : list node) : bool :=
  match rchain with
  | [] => true
  | tok :: rest =>
      match up with
      | [] => false
      | a :: up' =>
          if simple_matches tok a then chain_above rest up'
          else chain_above rchain up'
      end
  end.

Definition chain_matches (chain : list string) (n : node) (up : list node)
  : bool :=
  match rev chain with
  | [] => false
  | tok :: rest => simple_matches tok n && chain_above rest up
  end.

Definition chains (selector : string) : list (list string) :=
  map words (split_at ","%char "" selector).

Definition valid (selector : string) : bool :=
  forallb (fun chain => negb (Nat.eqb (List.length chain) 0) &&
                        forallb simple_valid chain)
          (chains selector).

Definition select_all (selector : string) (t : node) : list node :=
  map fst
    (filter (fun nu =>
               existsb (fun chain => chain_matches chain (fst nu) (snd nu))
                       (chains selector))
            (with_ancestors [] t)).

(** Table lookup. *)
Fixpoint assoc {A} (k : string) (l : list (string * A)) : option A :=
  match l with
  | [] => None
  | (k', v) :: r => if String.eqb k' k then Some v else assoc k r
  end.

(** [urljoin] for references into the directory of the base: an absolute
    http(s) reference stays, an empty one is the base, any other replaces
    what follows the last slash of the base. *)
Fixpoint dirname (p : string) : string :=
  match p with
  | EmptyString => EmptyString
  | String c r => if OsPath.has_slash r then String c (dirname r)
                  else if Ascii.eqb c "/"%char then "/" else ""
  end.

Definition join_url (base url : string) : string :=
  if negb (Py.truthy url) then base
  else if Py.startswith url "http://" || Py.startswith url "https://"
  then url
  else dirname base ++ url.

Definition decimal (n : nat) : string :=
  DecimalString.NilZero.string_of_uint (Nat.to_uint n).

Record Tables : Type := {
  web : list (string * Response);
  markup : list (string * node);
  files : list (string * string);
  pdf_text : list (string * string);
  folders : list (string * list string)
}.

Definition world (T : Tables) : World :=
  {| tag := node;
     requests_get := fun url =>
       match assoc url (web T) with
       | Some resp => ok resp
       | None => throw (RequestException url)
       end;
     BeautifulSoup := fun html =>
       match assoc html (markup T) with
       | Some doc => doc
       | None => document [Text html]
       end;
     sv_valid := valid;
     sv_select := select_all;
     find := find_first;
     get_text := all_text;
     get := attr;
     urljoin := join_url;
     open_read := fun path =>
       match assoc path (files T) with
       | Some bytes => ok bytes
       | None => throw (OSError path)
       end;
     extract_text := fun path =>
       match assoc path (pdf_text T) with
       | Some t => ok t
       | None => throw (PDFException path)
       end;
     uuid4 := fun n => "uuid-" ++ decimal n;
     isdir := fun path =>
       match assoc path (folders T) with
       | Some _ => true
       | None => false
       end;
     listdir := fun path =>
       match assoc path (folders T) with
       | Some names => ok names
       | None => throw (OSError path)
       end |}.

End Fixture.

(** * The vocabulary of the statements *)

(** ** Processes *)

(** Everything a process emits has a property. *)
Definition emits_only {X} (P : X -> Prop) (p : Proc X) : Prop :=
  forall s, Forall P (emitted (p s)).

(** The inner loop of [run]. *)
Definition items_loop (self : Scraper) (items : list string) : Proc dict :=
  for_each items (fun item => try_call (extract_content self item) emit).

(** Extraction of [item] returns, whenever it is called, a record that
    [R] relates to [item]. *)
Definition extracts (self : Scraper) (R : string -> dict -> Prop)
  (item : string) : Prop :=
  forall s, exists d s', extract_content self item s = (inr d, s') /\ R item d.

(** Extraction of [item] raises [e], whenever it is called. *)
Definition fails_with (self : Scraper) (e : exn) (item : string) : Prop :=
  forall s, exists s', extract_content self item s = (inl e, s').

Definition succeeds (self : Scraper) (item : string) : Prop :=
  extracts self (fun _ _ => True) item.

(** ** Listing pages *)

Section Listing.
Context (W : World).
Variables (start_url list_selector link_selector : string).

(** The elements that [parse_items] iterates over. *)
Definition anchors (page_content : string) : list (tag W) :=
  sv_select W (list_selector ++ " " ++ link_selector)
            (BeautifulSoup W page_content).

(** The anchor has an [href], and it is not the empty string. *)
Definition has_href (a : tag W) : bool :=
  match get W a "href" with
  | Some href => Py.truthy href
  | None => false
  end.

Definition href_of (a : tag W) : string :=
  match get W a "href" with
  | Some href => href
  | None => ""
  end.

(** What [parse_items] makes of an [href]. *)
Definition locator (href : string) : string :=
  if Py.startswith href "http" then href else urljoin W start_url href.


End Listing.

(** ** Item pages *)

Section ItemPage.
Context (W : World).
Variable (start_url : string).

Definition author_selector : string := ".author".

Definition paragraph_selector : string :=
  "article p, .post-content p, .content p".

(** The fields of the record of an item page, [id] apart. *)
Definition page_fields (item_url html : string) : dict :=
  let soup := BeautifulSoup W html in
  [ ("source", JStr start_url);
    ("url", JStr item_url);
    ("title", of_option (option_map (get_text W) (find W soup "h1")));
    ("author",
     of_option (option_map (get_text W)
                  (hd_error (sv_select W author_selector soup))));
    ("date",
     of_option (match find W soup "time" with
                | Some t => get W t "datetime"
                | None => None
                end));
    ("content",
     JStr (Py.join (Py.nl ++ Py.nl)
             (map (get_text W)
                (sv_select W paragraph_selector soup)))) ].


(** What [extract_content] returns for an item page, [id] apart, or the
    exception it raises. *)
Definition item_outline (item_url : string) : Result dict :=
  match HtmlScraper.fetch_page W item_url with
  | inl e => inl e
  | inr html =>
      if sv_valid W author_selector then
        if sv_valid W paragraph_selector
        then inr (page_fields item_url html)
        else inl (SelectorSyntaxError paragraph_selector)
      else inl (SelectorSyntaxError author_selector)
  end.

End ItemPage.

(** ** Records *)

Definition html_keys : list string :=
  ["id"; "source"; "url"; "title"; "author"; "date"; "content"].

Definition pdf_keys : list string := ["id"; "source"; "content"].

Definition optional_keys : list string := ["url"; "title"; "author"; "date"].

Definition is_str (v : option jvalue) : Prop := exists s, v = Some (JStr s).

(** The record has [content] and the four optional fields as keys. *)
Definition has_all_fields (d : dict) : bool :=
  has_key "content" d && forallb (fun k => has_key k d) optional_keys.

(** Two records agree on every field but [id]. *)
Definition same_but_id (d1 d2 : dict) : Prop :=
  forall k, k <> "id" -> lookup k d1 = lookup k d2.

Definition ids (ds : list dict) : list (option jvalue) :=
  map (lookup "id") ds.

(** The identifiers of the draws [s], [s+1], ..., [s+n-1]. *)
Definition draws (W : World) (s n : nat) : list string :=
  map (uuid4 W) (seq s n).

(** Records that get their [id] stamped on, one draw each, from draw [s]
    on. *)
Fixpoint stamp_from (W : World) (s : nat) (rests : list dict) : list dict :=
  match rests with
  | [] => []
  | rest :: more =>
      (("id", JStr (uuid4 W s)) :: rest) :: stamp_from W (S s) more
  end.

(** The outcome of a call of [extract_content] with the identifier left
    out: the exception it raises, or the fields that follow [id]. *)
Definition outlined (W : World) (m : M dict) (r : Result dict) : Prop :=
  forall s, m s = match r with
                  | inl e => (inl e, s)
                  | inr rest => (inr (("id", JStr (uuid4 W s)) :: rest), S s)
                  end.

(** The records of the inner loop of [run], identifiers left out. *)
Fixpoint collect (outline : string -> Result dict) (items : list string)
  : list dict * option exn :=
  match items with
  | [] => ([], None)
  | item :: more =>
      match outline item with
      | inl e => ([], Some e)
      | inr rest =>
          let (rests, o) := collect outline more in (rest :: rests, o)
      end
  end.

(** The records of [run], identifiers left out. *)
Fixpoint run_outline (self : Scraper) (outline : string -> Result dict)
  (pages : list string) : list dict * option exn :=
  match pages with
  | [] => ([], None)
  | page :: more =>
      match fetch_page self page with
      | inl e => ([], Some e)
      | inr content =>
          match parse_items self content with
          | inl e => ([], Some e)
          | inr items =>
              match collect outline items with
              | (rests, Some e) => (rests, Some e)
              | (rests, None) =>
                  let (rests', o) := run_outline self outline more in
                  ((rests ++ rests')%list, o)
              end
          end
      end
  end.

(** No string occurs twice. *)
Fixpoint distinct (l : list string) : bool :=
  match l with
  | [] => true
  | x :: r => negb (existsb (String.eqb x) r) && distinct r
  end.

(** The same world with another sequence of identifiers: another process
    on the same pages and files. *)
Definition reseed (W : World) (u : nat -> string) : World :=
  {| tag := tag W;
     requests_get := requests_get W;
     BeautifulSoup := BeautifulSoup W;
     sv_valid := sv_valid W;
     sv_select := sv_select W;
     find := find W;
     get_text := get_text W;
     get := get W;
     urljoin := urljoin W;
     open_read := open_read W;
     extract_text := extract_text W;
     uuid4 := u;
     isdir := isdir W;
     listdir := listdir W |}.

(** What [PDFScraper.extract_content] returns, [id] apart. *)
Definition pdf_outline (W : World) (item : string) : Result dict :=
  match extract_text W item with
  | inl e => inl e
  | inr text =>
      inr [ ("source", JStr (OsPath.basename item)); ("content", JStr text) ]
  end.

(** The listing of a source cannot be fetched, or cannot be enumerated. *)
Definition listing_fails (W : World) (src : Source) (e : exn) : Prop :=
  HtmlScraper.fetch_page W (src_start_url src) = inl e \/
  exists listing,
    HtmlScraper.fetch_page W (src_start_url src) = inr listing /\
    HtmlScraper.parse_items W (src_start_url src) (src_list_sel src)
      (src_link_sel src) listing = inl e.

(** ** Output lines *)

Definition is_record_line (line : string) : Prop :=
  exists d : dict, line = Json.dumps d.

(** A line that is not a record: a progress marker or the diagnostic of
    the missing folder. *)
Definition is_progress_line (line : string) : Prop :=
  (exists src, In src PREDEFINED_SOURCES /\ line = html_marker src) \/
  (exists fname, line = pdf_marker fname) \/
  line = pdf_folder_not_found.

Definition catalog_entry (n : nat) : Source :=
  nth n PREDEFINED_SOURCES (Build_Source "" "" "" "" "").

(** ** Sentences of the specification that the program does not satisfy,
    as they are written *)

Section AsWritten.
Context (W : World).

Definition item_fails (start_url item : string) : bool :=
  negb (is_ok (fst (HtmlScraper.extract_content W start_url item 0))).

(** An item that fails is left out and the run goes on: the run ends
    normally with as many records as items that did not fail. *)
Definition isolates_item_failures (start_url list_sel link_sel : string)
  : Prop :=
  forall listing items s,
    HtmlScraper.fetch_page W start_url = inr listing ->
    HtmlScraper.parse_items W start_url list_sel link_sel listing
      = inr items ->
    let r := BaseScraper.run
               (HtmlScraper.init W start_url list_sel link_sel) s in
    outcome r = None /\
    List.length (emitted r) =
      List.length items - List.length (filter (item_fails start_url) items).

(** The run of a source ends normally, or its listing cannot be fetched or
    enumerated: no item of the source fails. *)
Definition only_listing_fails (src : Source) : Prop :=
  (exists e, listing_fails W src e) \/
  forall s,
    outcome (BaseScraper.run
               (HtmlScraper.init W (src_start_url src) (src_list_sel src)
                                 (src_link_sel src)) s) = None.

(** A source whose listing cannot be fetched or enumerated is skipped and
    the others are run: when nothing else fails, the run of every source
    of the catalog is begun, that is, its progress marker is written. *)
Definition skips_only_failed_source : Prop :=
  (forall src, In src PREDEFINED_SOURCES -> only_listing_fails src) ->
  forall s src,
    In src PREDEFINED_SOURCES ->
    In (html_marker src) (emitted (scrape_all W s)).

(** Every record of every run has [content] and the four optional fields
    as keys. *)
Definition every_record_has_all_fields : Prop :=
  (forall start_url list_sel link_sel s,
     Forall (fun d => has_all_fields d = true)
       (emitted (BaseScraper.run
                   (HtmlScraper.init W start_url list_sel link_sel) s))) /\
  (forall pdf_path s,
     Forall (fun d => has_all_fields d = true)
       (emitted (BaseScraper.run (PDFScraper.init W pdf_path) s))).



End AsWritten.

(** ** Pages, files and folders to run the program on *)

Module Site.
Import Fixture.

Definition start : string := "https://example.org/blog/index.html".

Definition link (href label : string) : node :=
  Elem "a" [("href", href)] [Text label].

Definition post_1 : node :=
  document
    [ Elem "h1" [] [Text "One"];
      Elem "time" [("datetime", "2024-01-05")] [Text "Jan 5"];
      Elem "span" [("class", "byline author")] [Text "Ada"];
      Elem "article" []
        [ Elem "p" [] [Text "First."]; Elem "p" [] [Text "Second."] ] ].

Definition post_3 : node :=
  document [ Elem "div" [("class", "content")] [Elem "p" [] [Text "Bare."]] ].

Definition three_links : node :=
  document
    [ Elem "article" []
        [ link "post-1.html" "One"; link "post-2.html" "Two";
          link "post-3.html" "Three" ] ].

Definition twice_linked : node :=
  document
    [ Elem "article" [] [ link "post-1.html" "One" ];
      Elem "article" [] [ link "post-1.html" "One again" ] ].

Definition odd_links : node :=
  document
    [ Elem "article" []
        [ link "" "Here";
          Elem "a" [("name", "top")] [Text "Top"];
          link "post-1.html" "One";
          link "https://other.example/x" "Elsewhere";
          link "http-faq.html" "FAQ" ] ].

Definition page (body : string) : Response :=
  {| status_code := 200; text := body |}.

Definition not_found : Response :=
  {| status_code := 404; text := "Not Found" |}.

Definition docs : list (string * node) :=
  [ ("<three links>", three_links);
    ("<twice linked>", twice_linked);
    ("<odd links>", odd_links);
    ("<post 1>", post_1);
    ("<post 3>", post_3) ].

Definition posts : list (string * Response) :=
  [ ("https://example.org/blog/post-1.html", page "<post 1>");
    ("https://example.org/blog/post-2.html", not_found);
    ("https://example.org/blog/post-3.html", page "<post 3>") ].

Definition tables (listing : string) : Tables :=
  {| web := (start, page listing) :: posts;
     markup := docs;
     files := [("data/pdfs/notes.pdf", "%PDF-1.4 ...")];
     pdf_text := [("data/pdfs/notes.pdf", "Notes on trees.")];
     folders := [] |}.

(** A listing with three links, the second of which is a 404. *)
Definition broken_link : World := world (tables "<three links>").

(** A listing that links the same post from two places. *)
Definition linked_twice : World := world (tables "<twice linked>").

(** A listing with an empty [href], an anchor without [href], a relative
    link, an absolute link, and a relative link that begins with http. *)
Definition odd : World := world (tables "<odd links>").

(** Pages of the sites of the catalog. *)
Definition catalog_docs : list (string * node) :=
  [ ("<blog>",
     document [ Elem "h1" [] [ link "blog/a" "A" ] ]);
    ("<dsa>",
     document [ Elem "article" [] [ link "https://nilmamano.com/blog/b" "B" ] ]);
    ("<a>", post_1);
    ("<b>", post_3) ].

Definition catalog_tables (web_pages : list (string * Response)) : Tables :=
  {| web := web_pages;
     markup := catalog_docs;
     files := [];
     pdf_text := [];
     folders := [] |}.

(** The first listing does not answer, the last one would. *)
Definition first_down : World :=
  world (catalog_tables
    [ ("https://nilmamano.com/blog/category/dsa", page "<dsa>");
      ("https://nilmamano.com/blog/b", page "<b>") ]).

(** The first source is fine, the second listing does not answer. *)
Definition second_down : World :=
  world (catalog_tables
    [ ("https://interviewing.io/blog", page "<blog>");
      ("https://interviewing.io/blog/a", page "<a>");
      ("https://nilmamano.com/blog/category/dsa", page "<dsa>");
      ("https://nilmamano.com/blog/b", page "<b>") ]).

(** Every listing answers; the guides are filtered by their [href]. *)
Definition guides (kind : string) : node :=
  document
    [ Elem "div" [("class", "markdown-content")]
        [ link ("https://interviewing.io/" ++ kind ++ "/amazon") "Amazon";
          link "https://interviewing.io/about" "About" ] ].

Definition all_up_tables (dirs : list (string * list string)) : Tables :=
  {| web :=
       [ ("https://interviewing.io/blog", page "<blog>");
         ("https://interviewing.io/blog/a", page "<a>");
         ("https://interviewing.io/topics#companies", page "<topics>");
         ("https://interviewing.io/topics/amazon", page "<b>");
         ("https://interviewing.io/learn#interview-guides", page "<learn>");
         ("https://interviewing.io/learn/amazon", page "<b>");
         ("https://nilmamano.com/blog/category/dsa", page "<dsa>");
         ("https://nilmamano.com/blog/b", page "<b>") ];
     markup :=
       ("<topics>", guides "topics") :: ("<learn>", guides "learn")
       :: catalog_docs;
     files := [ ("data/pdfs/A.PDF", "%PDF-1.4 a");
                ("data/pdfs/b.pdf", "%PDF-1.7 b") ];
     pdf_text := [ ("data/pdfs/A.PDF", "Alpha"); ("data/pdfs/b.pdf", "") ];
     folders := dirs |}.

Definition all_up : World := world (all_up_tables []).

Definition all_up_with_pdfs : World :=
  world (all_up_tables [ ("data/pdfs", ["b.pdf"; "notes.txt"; "A.PDF"]) ]).

End Site.

(** * The vocabulary of the further properties *)

(** ** Lines *)

(** No character of the string is a control character (a code below 32):
    in particular the string has no line break. *)
Fixpoint no_control (s : string) : bool :=
  match s with
  | EmptyString => true
  | String c r => (32 <=? nat_of_ascii c)%nat && no_control r
  end.



(** ** The PDF folder *)

(** The test of [scrape_all] on a file name. *)
Definition is_pdf_name (fname : string) : bool :=
  Py.endswith (Py.lower fname) ".pdf".



(** ** Order *)

(** The list is in ascending order of [String.leb]. *)
Definition ascending (l : list string) : Prop :=
  StronglySorted (fun a b => String.leb a b = true) l.

(** ** A source of several listing pages *)

Module Pagination.
Import Fixture.

Definition page_2 : string := "https://example.org/blog/page-2.html".

Definition blog : World :=
  world
    {| web := (Site.start, Site.page "<twice linked>")
              :: (page_2, Site.page "<last page>")
              :: Site.posts;
       markup := ("<last page>",
                  document
                    [ Elem "article" [] [ Site.link "post-3.html" "Three" ] ])
                 :: Site.docs;
       files := [];
       pdf_text := [];
       folders := [] |}.

(** An [HtmlScraper] whose [list_pages] is overridden to return two
    listing pages. *)
Definition scraper : Scraper :=
  Build_Scraper string [Site.start; page_2]
    (HtmlScraper.fetch_page blog)
    (HtmlScraper.parse_items blog Site.start "article" "a")
    (HtmlScraper.extract_content blog Site.start).

End Pagination.

(** ** Identifiers and records *)


(** ** Reading a serialized string back *)

Definition hex_value (c : ascii) : nat :=
  let n := nat_of_ascii c in
  if (n <? 58)%nat then n - 48 else n - 87.

(** The character that a backslash and a letter stand for. *)
Definition unescape_letter (e : ascii) : ascii :=
  if Ascii.eqb e "n" then "010"
  else if Ascii.eqb e "r" then "013"
  else if Ascii.eqb e "t" then "009"
  else if Ascii.eqb e "b" then "008"
  else if Ascii.eqb e "f" then "012"
  else e.

(** Reads the inside of a JSON string up to its closing quote: the string
    it stands for, and what follows the quote. *)
Fixpoint scan (s : string) : option (string * string) :=
  match s with
  | EmptyString => None
  | String c r =>
      if Ascii.eqb c "034" then Some (EmptyString, r)
      else if Ascii.eqb c "\" then
        match r with
        | EmptyString => None
        | String e r1 =>
            if Ascii.eqb e "u" then
              match r1 with
              | String _ (String _ (String h (String l r2))) =>
                  match scan r2 with
                  | Some (t, rest) =>
                      Some (String (ascii_of_nat
                                      (16 * hex_value h + hex_value l)) t,
                            rest)
                  | None => None
                  end
              | _ => None
              end
            else
              match scan r1 with
              | Some (t, rest) => Some (String (unescape_letter e) t, rest)
              | None => None
              end
        end
      else
        match scan r with
        | Some (t, rest) => Some (String c t, rest)
        | None => None
        end
  end.

(** The members of a serialized record, between the braces. *)
Definition members (d : dict) : string :=
  Py.join ", " (map Json.dumps_item d).

(** * Properties *)

(** ** Lists *)


Lemma Forall2_map_filter {A B} (p : A -> bool) (f : A -> B) (l : list A) :
  Forall2 (fun a b => p a = true /\ b = f a) (filter p l)
          (map f (filter p l)).
Proof.
  induction l as [|a l IH]; simpl; [constructor|].
  destruct (p a) eqn:E; simpl; [constructor; auto|exact IH].
Qed.

Lemma distinct_NoDup (l : list string) : distinct l = true -> NoDup l.
Proof.
  induction l as [|x r IH]; simpl; intro H; constructor.
  - apply andb_prop in H. destruct H as [H _].
    intro Hin. apply negb_true_iff in H.
    assert (E : existsb (String.eqb x) r = true).
    { apply existsb_exists. exists x. split; [exact Hin|].
      apply String.eqb_refl. }
    congruence.
  - apply IH. apply andb_prop in H. tauto.
Qed.

Lemma NoDup_map_some (l : list string) :
  NoDup l -> NoDup (map (fun id => Some (JStr id)) l).
Proof.
  induction 1 as [|x l Hx _ IH]; simpl; constructor; [|exact IH].
  intro H. apply in_map_iff in H. destruct H as (y & E & Hy).
  injection E as ->. contradiction.
Qed.

Lemma NoDup_app_pointwise {A} (l1 l2 : list A) :
  NoDup (l1 ++ l2) -> List.length l1 = List.length l2 ->
  Forall2 (fun a b => a <> b) l1 l2.
Proof.
  revert l2; induction l1 as [|a l1 IH]; intros [|b l2] H E;
    try discriminate; [constructor|].
  simpl in H. inversion H as [|? ? Ha Hrest]; subst.
  constructor.
  - intros ->. apply Ha. apply in_or_app. right. now left.
  - apply IH; [|simpl in E; congruence].
    eapply NoDup_remove_1; exact Hrest.
Qed.

(** ** Generators and commands *)

Section ProcFacts.
Context {X : Type}.
Implicit Types (p q : Proc X) (s : nat) (P : X -> Prop).

Lemma andthen_stops p q s xs e s' :
  p s = (xs, Some e, s') -> andthen p q s = (xs, Some e, s').
Proof. unfold andthen; intros ->; reflexivity. Qed.

Lemma andthen_goes_on p q s xs s' :
  p s = (xs, None, s') ->
  andthen p q s =
    ((xs ++ emitted (q s'))%list, outcome (q s'), final (q s')).
Proof.
  unfold andthen, emitted, outcome, final; intros ->.
  destruct (q s') as [[ys o] s'']; reflexivity.
Qed.

Lemma andthen_done_r p s : andthen p done s = p s.
Proof.
  unfold andthen, done.
  destruct (p s) as [[xs [e|]] s']; [reflexivity|].
  now rewrite app_nil_r.
Qed.

Lemma andthen_emitted_prefix p q s :
  exists rest, emitted (andthen p q s) = (emitted (p s) ++ rest)%list.
Proof.
  unfold andthen, emitted.
  destruct (p s) as [[xs [e|]] s']; simpl.
  - exists []; now rewrite app_nil_r.
  - destruct (q s') as [[ys o] s'']; simpl; now exists ys.
Qed.

Lemma for_each_app {A} (l1 l2 : list A) (body : A -> Proc X) s :
  for_each (l1 ++ l2) body s =
  andthen (for_each l1 body) (for_each l2 body) s.
Proof.
  revert s; induction l1 as [|a l1 IH]; intro s; simpl.
  - unfold andthen, done; simpl.
    destruct (for_each l2 body s) as [[ys o] s'']; reflexivity.
  - unfold andthen.
    destruct (body a s) as [[xs [e|]] s']; [reflexivity|].
    rewrite IH. unfold andthen.
    destruct (for_each l1 body s') as [[ys [e|]] s'']; [reflexivity|].
    destruct (for_each l2 body s'') as [[zs o] s3].
    now rewrite app_assoc.
Qed.

Lemma emits_only_done P : emits_only P done.
Proof. intro s; constructor. Qed.

Lemma emits_only_raise P e : emits_only P (raise e).
Proof. intro s; constructor. Qed.

Lemma emits_only_emit (P : X -> Prop) x : P x -> emits_only P (emit x).
Proof. intros H s; repeat constructor; exact H. Qed.

Lemma emits_only_andthen P p q :
  emits_only P p -> emits_only P q -> emits_only P (andthen p q).
Proof.
  intros Hp Hq s. specialize (Hp s). unfold andthen, emitted in *.
  destruct (p s) as [[xs [e|]] s']; simpl in *; [exact Hp|].
  specialize (Hq s'). destruct (q s') as [[ys o] s'']; simpl in *.
  apply Forall_app; split; assumption.
Qed.

Lemma emits_only_for_each {A} P (l : list A) (body : A -> Proc X) :
  (forall a, In a l -> emits_only P (body a)) ->
  emits_only P (for_each l body).
Proof.
  induction l as [|a l IH]; intro H; simpl.
  - apply emits_only_done.
  - apply emits_only_andthen; [apply H; now left|].
    apply IH; intros b Hb; apply H; now right.
Qed.

Lemma emits_only_try_result {A} P (r : Result A) (k : A -> Proc X) :
  (forall a, r = inr a -> emits_only P (k a)) ->
  emits_only P (try_result r k).
Proof.
  destruct r as [e|a]; simpl; intro H.
  - apply emits_only_raise.
  - now apply H.
Qed.

End ProcFacts.

Lemma emits_only_try_call {A X} (P : X -> Prop) (m : M A) (f : A -> X) :
  (forall s a s', m s = (inr a, s') -> P (f a)) ->
  emits_only P (try_call m (fun a => emit (f a))).
Proof.
  intros H s. unfold try_call, emitted.
  destruct (m s) as [[e|a] s'] eqn:E; simpl.
  - constructor.
  - repeat constructor. eapply H; eassumption.
Qed.

Lemma emits_only_echo_each {X} (P : string -> Prop) (f : X -> string)
  (gen : Proc X) :
  (forall x, P (f x)) -> emits_only P (echo_each f gen).
Proof.
  intros H s. unfold echo_each, emitted.
  destruct (gen s) as [[xs o] s']; simpl.
  apply Forall_forall. intros line Hin.
  apply in_map_iff in Hin. destruct Hin as (x & <- & _). apply H.
Qed.

(** ** BaseScraper.run *)

Section RunFacts.
Variable self : Scraper.

Lemma run_one_page page content items s :
  list_pages self = [page] ->
  fetch_page self page = inr content ->
  parse_items self content = inr items ->
  BaseScraper.run self s = items_loop self items s.
Proof.
  intros Hl Hf Hp. unfold BaseScraper.run. rewrite Hl. simpl.
  rewrite andthen_done_r, Hf. simpl. rewrite Hp. reflexivity.
Qed.

Lemma run_fetch_fails page e s :
  list_pages self = [page] ->
  fetch_page self page = inl e ->
  BaseScraper.run self s = ([], Some e, s).
Proof.
  intros Hl Hf. unfold BaseScraper.run. rewrite Hl. simpl.
  rewrite andthen_done_r, Hf. reflexivity.
Qed.

Lemma run_parse_fails page content e s :
  list_pages self = [page] ->
  fetch_page self page = inr content ->
  parse_items self content = inl e ->
  BaseScraper.run self s = ([], Some e, s).
Proof.
  intros Hl Hf Hp. unfold BaseScraper.run. rewrite Hl. simpl.
  rewrite andthen_done_r, Hf. simpl. rewrite Hp. reflexivity.
Qed.

Lemma items_loop_all R items s :
  Forall (extracts self R) items ->
  outcome (items_loop self items s) = None /\
  Forall2 R items (emitted (items_loop self items s)).
Proof.
  intro H; revert s; induction H as [|item items Hi _ IH]; intro s.
  - split; [reflexivity|constructor].
  - unfold items_loop; simpl. fold (items_loop self items).
    destruct (Hi s) as (d & s' & E & Hd).
    erewrite andthen_goes_on
      by (unfold try_call; rewrite E; reflexivity).
    destruct (IH s') as [Ho Hr]. split; [exact Ho|].
    unfold emitted at 1; simpl. now constructor.
Qed.

Lemma items_loop_stops R pre bad post e s :
  Forall (extracts self R) pre ->
  fails_with self e bad ->
  outcome (items_loop self (pre ++ bad :: post) s) = Some e /\
  Forall2 R pre (emitted (items_loop self (pre ++ bad :: post) s)).
Proof.
  intros H Hbad; revert s; induction H as [|item items Hi _ IH]; intro s.
  - unfold items_loop; simpl. destruct (Hbad s) as [s' E].
    erewrite andthen_stops
      by (unfold try_call; rewrite E; reflexivity).
    split; [reflexivity|constructor].
  - unfold items_loop; simpl. fold (items_loop self (items ++ bad :: post)).
    destruct (Hi s) as (d & s' & E & Hd).
    erewrite andthen_goes_on
      by (unfold try_call; rewrite E; reflexivity).
    destruct (IH s') as [Ho Hr]. split; [exact Ho|].
    unfold emitted at 1; simpl. now constructor.
Qed.

Lemma run_emits_only (P : dict -> Prop) :
  (forall item s d s', extract_content self item s = (inr d, s') -> P d) ->
  emits_only P (BaseScraper.run self).
Proof.
  intro H. unfold BaseScraper.run.
  apply emits_only_for_each; intros page _.
  apply emits_only_try_result; intros content _.
  apply emits_only_try_result; intros items _.
  apply emits_only_for_each; intros item _.
  apply (emits_only_try_call P (extract_content self item) (fun d => d)).
  intros s d s' E. eapply H; eassumption.
Qed.

End RunFacts.

(** ** Records *)

Lemma lookup_cons_eq k v (d : dict) : lookup k ((k, v) :: d) = Some v.
Proof. cbn [lookup]. now rewrite String.eqb_refl. Qed.

Lemma lookup_cons_ne k k' v (d : dict) :
  k' <> k -> lookup k ((k', v) :: d) = lookup k d.
Proof.
  intro H. cbn [lookup].
  destruct (String.eqb_spec k' k); [contradiction|reflexivity].
Qed.

(** ** Identifiers *)

Section StampFacts.
Context (W : World).

Lemma stamp_from_length s rests :
  List.length (stamp_from W s rests) = List.length rests.
Proof. revert s; induction rests; intro s; simpl; auto. Qed.

Lemma stamp_from_app s r1 r2 :
  stamp_from W s (r1 ++ r2) =
  (stamp_from W s r1 ++ stamp_from W (s + List.length r1) r2)%list.
Proof.
  revert s; induction r1 as [|r r1 IH]; intro s; simpl.
  - now rewrite Nat.add_0_r.
  - rewrite IH. now rewrite Nat.add_succ_comm.
Qed.

Lemma stamp_from_ids s rests :
  ids (stamp_from W s rests) =
  map (fun id => Some (JStr id)) (draws W s (List.length rests)).
Proof.
  unfold ids, draws. revert s; induction rests as [|r rests IH]; intro s.
  - reflexivity.
  - simpl. now rewrite IH.
Qed.

Lemma items_loop_outlined (self : Scraper) (outline : string -> Result dict)
  (items : list string) (s : nat) :
  (forall item, outlined W (extract_content self item) (outline item)) ->
  items_loop self items s =
  (stamp_from W s (fst (collect outline items)),
   snd (collect outline items),
   s + List.length (fst (collect outline items))).
Proof.
  intro H; revert s; induction items as [|item items IH]; intro s.
  - simpl. now rewrite Nat.add_0_r.
  - unfold items_loop; simpl. fold (items_loop self items).
    unfold andthen, try_call. rewrite (H item s).
    destruct (outline item) as [e|rest]; simpl.
    + now rewrite Nat.add_0_r.
    + rewrite IH.
      destruct (collect outline items) as [rests o]; simpl.
      now rewrite Nat.add_succ_r.
Qed.

Lemma pages_loop_outlined (self : Scraper) (outline : string -> Result dict)
  (pages : list string) (s : nat) :
  (forall item, outlined W (extract_content self item) (outline item)) ->
  for_each pages (fun page =>
    try_result (fetch_page self page) (fun content =>
      try_result (parse_items self content) (fun items =>
        items_loop self items))) s =
  (stamp_from W s (fst (run_outline self outline pages)),
   snd (run_outline self outline pages),
   s + List.length (fst (run_outline self outline pages))).
Proof.
  intro H; revert s; induction pages as [|page pages IH]; intro s.
  - simpl. now rewrite Nat.add_0_r.
  - simpl. unfold andthen.
    destruct (fetch_page self page) as [e|content]; simpl;
      [now rewrite Nat.add_0_r|].
    destruct (parse_items self content) as [e|items]; simpl;
      [now rewrite Nat.add_0_r|].
    rewrite (items_loop_outlined self outline items s H).
    destruct (collect outline items) as [rests [e|]]; simpl;
      [reflexivity|].
    rewrite IH.
    destruct (run_outline self outline pages) as [rests' o]; simpl.
    now rewrite stamp_from_app, length_app, Nat.add_assoc.
Qed.

Lemma run_outlined (self : Scraper) (outline : string -> Result dict)
  (s : nat) :
  (forall item, outlined W (extract_content self item) (outline item)) ->
  BaseScraper.run self s =
  (stamp_from W s (fst (run_outline self outline (list_pages self))),
   snd (run_outline self outline (list_pages self)),
   s + List.length (fst (run_outline self outline (list_pages self)))).
Proof. intro H. now apply pages_loop_outlined. Qed.

End StampFacts.

Lemma stamp_from_same_but_id (W W' : World) (s s' : nat)
  (rests : list dict) :
  Forall2 same_but_id (stamp_from W s rests) (stamp_from W' s' rests).
Proof.
  revert s s'; induction rests as [|r rests IH]; intros s s'; simpl.
  - constructor.
  - constructor; [|apply IH].
    intros k Hk. rewrite !lookup_cons_ne by congruence. reflexivity.
Qed.

(** Two runs that have the same outline, in two worlds or from two states
    of one. *)
Lemma rerun_outlined (W W' : World) (self self' : Scraper)
  (outline : string -> Result dict) (s s' : nat) :
  (forall item, outlined W (extract_content self item) (outline item)) ->
  (forall item, outlined W' (extract_content self' item) (outline item)) ->
  run_outline self outline (list_pages self) =
  run_outline self' outline (list_pages self') ->
  let r1 := BaseScraper.run self s in
  let r2 := BaseScraper.run self' s' in
  outcome r2 = outcome r1 /\
  Forall2 same_but_id (emitted r1) (emitted r2) /\
  ids (emitted r1) =
    map (fun id => Some (JStr id)) (draws W s (List.length (emitted r1))) /\
  ids (emitted r2) =
    map (fun id => Some (JStr id)) (draws W' s' (List.length (emitted r2))) /\
  (NoDup (draws W s (List.length (emitted r1)) ++
          draws W' s' (List.length (emitted r2))) ->
   NoDup (ids (emitted r1) ++ ids (emitted r2)) /\
   Forall2 (fun i1 i2 => i1 <> i2) (ids (emitted r1)) (ids (emitted r2))).
Proof.
  intros H H' E r1 r2. subst r1 r2.
  rewrite (run_outlined W self outline s H),
    (run_outlined W' self' outline s' H'), <- E.
  destruct (run_outline self outline (list_pages self)) as [rests o].
  unfold emitted, outcome; simpl.
  rewrite !stamp_from_length, !stamp_from_ids.
  split; [reflexivity|]. split; [|split; [reflexivity|split; [reflexivity|]]].
  - apply stamp_from_same_but_id.
  - intro Hnd.
    assert (Hn : NoDup (map (fun id => Some (JStr id))
                          (draws W s (List.length rests)) ++
                        map (fun id => Some (JStr id))
                          (draws W' s' (List.length rests)))).
    { rewrite <- map_app. now apply NoDup_map_some. }
    split; [exact Hn|].
    apply NoDup_app_pointwise; [exact Hn|].
    unfold draws. now rewrite !length_map, !length_seq.
Qed.

(** The second run follows the first in the same process. *)
Lemma rerun_in_process (W : World) (self : Scraper)
  (outline : string -> Result dict) (s : nat) :
  (forall item, outlined W (extract_content self item) (outline item)) ->
  let r1 := BaseScraper.run self s in
  let r2 := BaseScraper.run self (final r1) in
  outcome r2 = outcome r1 /\
  Forall2 same_but_id (emitted r1) (emitted r2) /\
  (NoDup (draws W s (List.length (emitted r1) + List.length (emitted r2))) ->
   NoDup (ids (emitted r1) ++ ids (emitted r2))).
Proof.
  intros H r1 r2.
  destruct (rerun_outlined W W self self outline s (final r1) H H eq_refl)
    as (Ho & Hs & _ & _ & Hn).
  fold r1 r2 in Ho, Hs, Hn.
  split; [exact Ho|]. split; [exact Hs|].
  intro Hnd. apply Hn.
  assert (E : final r1 = s + List.length (emitted r1)).
  { subst r1. rewrite (run_outlined W self outline s H).
    unfold final, emitted; simpl. now rewrite stamp_from_length. }
  rewrite E. unfold draws in *. now rewrite <- map_app, <- seq_app.
Qed.

(** ** HtmlScraper *)

Section HtmlFacts.
Context (W : World).
Variables (start_url list_selector link_selector : string).

Lemma fold_append_item (l : list (tag W)) (acc : list string) :
  fold_left (HtmlScraper.append_item W start_url) l acc =
  (acc ++ map (fun a => locator W start_url (href_of W a))
              (filter (has_href W) l))%list.
Proof.
  revert acc; induction l as [|a l IH]; intro acc; simpl.
  - now rewrite app_nil_r.
  - rewrite IH. unfold HtmlScraper.append_item.
    assert (E : href_of W a = match get W a "href" with
                              | Some h => h | None => "" end)
      by reflexivity.
    unfold has_href at 2.
    destruct (get W a "href") as [href|]; [|reflexivity].
    destruct (Py.truthy href); [|reflexivity].
    cbn [map]. rewrite E. unfold locator at 2.
    now rewrite <- app_assoc.
Qed.

Lemma truthy_nonempty (x : string) : Py.truthy x = true <-> x <> "".
Proof. destruct x; simpl; split; congruence. Qed.

Lemma has_href_true (a : tag W) :
  has_href W a = true <->
  exists href, get W a "href" = Some href /\ href <> "".
Proof.
  unfold has_href. destruct (get W a "href") as [href|]; split.
  - intro H. exists href. split; [reflexivity|now apply truthy_nonempty].
  - intros (h & E & Hh). injection E as <-. now apply truthy_nonempty.
  - discriminate.
  - intros (h & E & _). discriminate.
Qed.

Lemma parse_items_eq (page_content : string) :
  HtmlScraper.parse_items W start_url list_selector link_selector page_content =
  if sv_valid W (list_selector ++ " " ++ link_selector)
  then inr (map (fun a => locator W start_url (href_of W a))
                (filter (has_href W)
                        (anchors W list_selector link_selector page_content)))
  else inl (SelectorSyntaxError (list_selector ++ " " ++ link_selector)).
Proof.
  unfold HtmlScraper.parse_items, Bs4.select, anchors.
  destruct (sv_valid W (list_selector ++ " " ++ link_selector)); simpl.
  - now rewrite fold_append_item.
  - reflexivity.
Qed.

Lemma html_extract_content_eq (item_url : string) (s : nat) :
  HtmlScraper.extract_content W start_url item_url s =
  match item_outline W start_url item_url with
  | inl e => (inl e, s)
  | inr rest => (inr (("id", JStr (uuid4 W s)) :: rest), S s)
  end.
Proof.
  unfold HtmlScraper.extract_content, item_outline, page_fields, bind, lift,
    fresh_uuid, ret, Bs4.select_one, Bs4.select, rbind, ok, throw,
    author_selector, paragraph_selector.
  destruct (HtmlScraper.fetch_page W item_url) as [e|html]; [reflexivity|].
  destruct (sv_valid W ".author"); [|reflexivity].
  destruct (sv_valid W "article p, .post-content p, .content p");
    [|reflexivity].
  destruct (find W (BeautifulSoup W html) "time") as [t|]; [|reflexivity].
  destruct (get W t "datetime"); reflexivity.
Qed.

Lemma html_outlined (item_url : string) :
  outlined W (extract_content
              (HtmlScraper.init W start_url list_selector link_selector)
              item_url)
           (item_outline W start_url item_url).
Proof. intro s. apply html_extract_content_eq. Qed.

Lemma html_fails (item_url : string) (e : exn) :
  item_outline W start_url item_url = inl e ->
  fails_with (HtmlScraper.init W start_url list_selector link_selector) e
    item_url.
Proof.
  intros H s. simpl. rewrite html_extract_content_eq, H. now exists s.
Qed.


Lemma html_record_of_outline (item_url : string) (s s' : nat) (d : dict) :
  HtmlScraper.extract_content W start_url item_url s = (inr d, s') ->
  exists html,
    HtmlScraper.fetch_page W item_url = inr html /\
    d = ("id", JStr (uuid4 W s)) :: page_fields W start_url item_url html.
Proof.
  rewrite html_extract_content_eq. unfold item_outline.
  destruct (HtmlScraper.fetch_page W item_url) as [e|html]; [discriminate|].
  destruct (sv_valid W author_selector); [|discriminate].
  destruct (sv_valid W paragraph_selector); [|discriminate].
  intro E; injection E as <- _. now exists html.
Qed.


Lemma html_succeeds (item_url : string) :
  is_ok (item_outline W start_url item_url) = true ->
  succeeds (HtmlScraper.init W start_url list_selector link_selector)
    item_url.
Proof.
  intros H s. simpl. rewrite html_extract_content_eq.
  destruct (item_outline W start_url item_url) as [e|rest];
    [discriminate|].
  eexists _, _; split; [reflexivity|exact I].
Qed.

End HtmlFacts.

(** ** PDFScraper *)

Section PdfFacts.
Context (W : World).
Variable (pdf_path : string).

Lemma pdf_extract_content_eq (item : string) (s : nat) :
  PDFScraper.extract_content W item s =
  match pdf_outline W item with
  | inl e => (inl e, s)
  | inr rest => (inr (("id", JStr (uuid4 W s)) :: rest), S s)
  end.
Proof.
  unfold PDFScraper.extract_content, pdf_outline, bind, lift, fresh_uuid, ret.
  destruct (extract_text W item); reflexivity.
Qed.

Lemma pdf_outlined (item : string) :
  outlined W (extract_content (PDFScraper.init W pdf_path) item)
           (pdf_outline W item).
Proof. intro s. apply pdf_extract_content_eq. Qed.

Lemma pdf_succeeds (item : string) :
  is_ok (pdf_outline W item) = true ->
  succeeds (PDFScraper.init W pdf_path) item.
Proof.
  intros H s. simpl. rewrite pdf_extract_content_eq.
  destruct (pdf_outline W item) as [e|rest]; [discriminate|].
  eexists _, _; split; [reflexivity|exact I].
Qed.

Lemma pdf_fails (item : string) (e : exn) :
  pdf_outline W item = inl e ->
  fails_with (PDFScraper.init W pdf_path) e item.
Proof.
  intros H s. simpl. rewrite pdf_extract_content_eq, H. now exists s.
Qed.

End PdfFacts.

(** ** The small world *)

Lemma join_url_nonempty (base url : string) :
  url <> "" -> Fixture.join_url base url <> "".
Proof.
  intro H. unfold Fixture.join_url.
  destruct url as [|c r]; [contradiction|]. cbn [Py.truthy negb].
  destruct (Py.startswith (String c r) "http://" ||
            Py.startswith (String c r) "https://"); [discriminate|].
  destruct (Fixture.dirname base); discriminate.
Qed.

(** ** os.path.basename *)

Lemma basename_no_slash (p : string) :
  OsPath.has_slash (OsPath.basename p) = false.
Proof.
  induction p as [|c r IH]; [reflexivity|]. simpl.
  destruct (OsPath.has_slash r) eqn:Hr; [exact IH|].
  destruct (Ascii.eqb c "/") eqn:Hc; [exact Hr|].
  simpl. now rewrite Hc, Hr.
Qed.

Lemma basename_strips_directory (p : string) :
  exists dir,
    p = dir ++ OsPath.basename p /\
    (dir = "" \/ exists d, dir = d ++ "/").
Proof.
  induction p as [|c r IH].
  - exists ""; split; [reflexivity|now left].
  - simpl. destruct (OsPath.has_slash r) eqn:Hr.
    + destruct IH as (dir & E & [->|[d ->]]).
      * simpl in E. rewrite <- E in *.
        pose proof (basename_no_slash r) as H. rewrite <- E in H. congruence.
      * exists (String c (d ++ "/")); split.
        -- simpl. now rewrite <- E.
        -- right. now exists (String c d).
    + destruct (Ascii.eqb_spec c "/"%char) as [->|_].
      * exists "/"; split; [reflexivity|right; now exists ""].
      * exists ""; split; [reflexivity|now left].
Qed.

(** ** json.dumps and the lines of the output *)

Lemma dumps_opens_brace (d : dict) :
  exists rest, Json.dumps d = String "{"%char rest.
Proof. unfold Json.dumps. simpl. eauto. Qed.

Lemma html_marker_not_record (src : Source) :
  ~ is_record_line (html_marker src).
Proof.
  intros [d H]. destruct (dumps_opens_brace d) as [rest E].
  rewrite E in H. unfold html_marker in H. simpl in H. discriminate.
Qed.

Lemma pdf_marker_not_record (fname : string) :
  ~ is_record_line (pdf_marker fname).
Proof.
  intros [d H]. destruct (dumps_opens_brace d) as [rest E].
  rewrite E in H. unfold pdf_marker in H. simpl in H. discriminate.
Qed.

Lemma not_found_not_record : ~ is_record_line pdf_folder_not_found.
Proof.
  intros [d H]. destruct (dumps_opens_brace d) as [rest E].
  rewrite E in H. discriminate.
Qed.

(** ** The commands *)

Section CommandFacts.
Context (W : World).

Lemma scrape_source_eq (src : Source) (s : nat) :
  scrape_source W src s =
  let r := BaseScraper.run
             (HtmlScraper.init W (src_start_url src) (src_list_sel src)
                               (src_link_sel src)) s in
  (html_marker src :: map Json.dumps (emitted r), outcome r, final r).
Proof.
  unfold scrape_source, echo_records, andthen, emit, echo_each.
  cbv zeta.
  destruct (BaseScraper.run _ s) as [[xs o] s']. reflexivity.
Qed.

Lemma listing_fails_run (src : Source) (e : exn) (s : nat) :
  listing_fails W src e ->
  BaseScraper.run
    (HtmlScraper.init W (src_start_url src) (src_list_sel src)
                      (src_link_sel src)) s = ([], Some e, s).
Proof.
  intros [H|(listing & Hf & Hp)].
  - eapply run_fetch_fails; [reflexivity|exact H].
  - eapply run_parse_fails; [reflexivity|exact Hf|exact Hp].
Qed.

Lemma scrape_sources_stop (pre post : list Source) (src : Source)
  (e : exn) (s : nat) :
  outcome (scrape_sources W pre s) = None ->
  listing_fails W src e ->
  scrape_sources W (pre ++ src :: post) s =
  ((emitted (scrape_sources W pre s) ++ [html_marker src])%list, Some e,
   final (scrape_sources W pre s)).
Proof.
  intros Hpre Hsrc. unfold scrape_sources in *. rewrite for_each_app.
  destruct (for_each pre (scrape_source W) s) as [[xs o] s'] eqn:E0.
  unfold outcome in Hpre; simpl in Hpre; subst o.
  rewrite (andthen_goes_on _ _ _ _ _ E0).
  assert (E : for_each (src :: post) (scrape_source W) s' =
              ([html_marker src], Some e, s')).
  { simpl. apply andthen_stops.
    rewrite scrape_source_eq. cbv zeta.
    now rewrite (listing_fails_run src e _ Hsrc). }
  rewrite E. reflexivity.
Qed.

Lemma scrape_all_eq (s : nat) :
  let html := scrape_sources W PREDEFINED_SOURCES s in
  emitted (scrape_all W s) =
  (emitted html ++
   match outcome html with
   | None => emitted (scrape_pdfs W (final html))
   | Some _ => []
   end)%list.
Proof.
  cbv zeta. unfold scrape_all, andthen, emitted, outcome, final.
  destruct (scrape_sources W PREDEFINED_SOURCES s) as [[xs [e|]] s']; simpl.
  - now rewrite app_nil_r.
  - now destruct (scrape_pdfs W s') as [[ys o] s''].
Qed.

Lemma scrape_all_begins (s : nat) :
  let first := catalog_entry 0 in
  exists rest,
    emitted (scrape_all W s) =
    html_marker first ::
    (map Json.dumps
       (emitted (BaseScraper.run
                   (HtmlScraper.init W (src_start_url first)
                      (src_list_sel first) (src_link_sel first)) s))
     ++ rest)%list.
Proof.
  cbv zeta.
  destruct (andthen_emitted_prefix
              (scrape_sources W PREDEFINED_SOURCES) (scrape_pdfs W) s)
    as [rest1 E1].
  destruct (andthen_emitted_prefix
              (scrape_source W (catalog_entry 0))
              (scrape_sources W (tl PREDEFINED_SOURCES)) s)
    as [rest2 E2].
  exists (rest2 ++ rest1)%list.
  unfold scrape_all. rewrite E1.
  change (scrape_sources W PREDEFINED_SOURCES s)
    with (andthen (scrape_source W (catalog_entry 0))
                  (scrape_sources W (tl PREDEFINED_SOURCES)) s).
  rewrite E2, scrape_source_eq. cbv zeta. unfold emitted at 1. simpl fst.
  now rewrite <- app_assoc.
Qed.

Lemma scrape_pdfs_no_folder (s : nat) :
  isdir W PDF_FOLDER = false ->
  scrape_pdfs W s = ([pdf_folder_not_found], None, s).
Proof. unfold scrape_pdfs. now intros ->. Qed.

Lemma echo_records_lines (scraper : Scraper) :
  emits_only (fun line => is_record_line line \/ is_progress_line line)
             (echo_records scraper).
Proof.
  apply emits_only_echo_each. intro d. left. now exists d.
Qed.

Lemma scrape_all_lines :
  emits_only (fun line => is_record_line line \/ is_progress_line line)
             (scrape_all W).
Proof.
  unfold scrape_all. apply emits_only_andthen.
  - apply emits_only_for_each. intros src Hsrc.
    apply emits_only_andthen; [|apply echo_records_lines].
    apply emits_only_emit. right. left. now exists src.
  - unfold scrape_pdfs. destruct (isdir W PDF_FOLDER).
    + apply emits_only_try_result. intros names _.
      apply emits_only_for_each. intros fname _.
      unfold scrape_pdf_file.
      destruct (Py.endswith (Py.lower fname) ".pdf");
        [|apply emits_only_done].
      apply emits_only_andthen; [|apply echo_records_lines].
      apply emits_only_emit. right. right. left. now exists fname.
    + apply emits_only_emit. right. right. now right.
Qed.

Lemma progress_line_not_record (line : string) :
  is_progress_line line -> ~ is_record_line line.
Proof.
  intros [(src & _ & ->)|[(fname & ->)| ->]].
  - apply html_marker_not_record.
  - apply pdf_marker_not_record.
  - apply not_found_not_record.
Qed.

End CommandFacts.


(** * The claims *)

Local Open Scope list_scope.

(** ** Item failures *)

Lemma succeeds_extracts (self : Scraper) (item : string) :
  succeeds self item ->
  extracts self
    (fun item d => exists s s', extract_content self item s = (inr d, s'))
    item.
Proof.
  intros H s. destruct (H s) as (d & s' & E & _).
  exists d, s'; split; [exact E|]. now exists s, s'.
Qed.

(** C1, as the program has it: nothing in [run] catches an exception.  When
    the listing page of a source is fetched and parsed, the items before the
    first one whose extraction fails succeed, and that one fails, the run
    yields the records of the items before it, one each and in order,
    and ends there with the exception of the failing item; the items after
    it are not extracted. *)
Theorem run_stops_at_first_failing_item
  (self : Scraper) (page : string) (content : page_content self)
  (pre post : list string) (bad : string) (e : exn) (s : nat) :
  list_pages self = [page] ->
  fetch_page self page = inr content ->
  parse_items self content = inr (pre ++ bad :: post) ->
  Forall (succeeds self) pre ->
  fails_with self e bad ->
  let r := BaseScraper.run self s in
  outcome r = Some e /\
  List.length (emitted r) = List.length pre /\
  Forall2
    (fun item d => exists s0 s1, extract_content self item s0 = (inr d, s1))
    pre (emitted r).
Proof.
  intros Hl Hf Hp Hpre Hbad r. subst r.
  rewrite (run_one_page self page content _ s Hl Hf Hp).
  destruct (items_loop_stops self _ pre bad post e s
              (Forall_impl _ (succeeds_extracts self) Hpre) Hbad)
    as [Ho Hr].
  split; [exact Ho|]. split; [|exact Hr].
  symmetry. eapply Forall2_length; exact Hr.
Qed.

Lemma run_stops_at_first_failing_item_witness :
  let r := BaseScraper.run
             (HtmlScraper.init Site.broken_link Site.start "article" "a") 0 in
  outcome r = Some (HTTPError "https://example.org/blog/post-2.html" 404) /\
  List.length (emitted r) = 1 /\
  Forall2
    (fun item d =>
       exists s0 s1,
         extract_content
           (HtmlScraper.init Site.broken_link Site.start "article" "a")
           item s0 = (inr d, s1))
    ["https://example.org/blog/post-1.html"] (emitted r).
Proof.
  apply (run_stops_at_first_failing_item
           (HtmlScraper.init Site.broken_link Site.start "article" "a")
           Site.start "<three links>"
           ["https://example.org/blog/post-1.html"]
           ["https://example.org/blog/post-3.html"]
           "https://example.org/blog/post-2.html"
           (HTTPError "https://example.org/blog/post-2.html" 404) 0).
  - reflexivity.
  - reflexivity.
  - reflexivity.
  - repeat constructor. apply html_succeeds. reflexivity.
  - apply html_fails. reflexivity.
Defined.

(** C1 as it is written fails: of three discovered items of which the
    second is a 404, the run yields one record, not two, and ends with the
    exception. *)
Lemma item_failure_aborts_run :
  ~ isolates_item_failures Site.broken_link Site.start "article" "a".
Proof.
  intro H.
  specialize (H "<three links>"
                [ "https://example.org/blog/post-1.html";
                  "https://example.org/blog/post-2.html";
                  "https://example.org/blog/post-3.html" ]
                0 eq_refl eq_refl).
  destruct H as [H _]. vm_compute in H. discriminate H.
Qed.

(** The numbers of that run. *)
Example broken_link_counts :
  let items := [ "https://example.org/blog/post-1.html";
                 "https://example.org/blog/post-2.html";
                 "https://example.org/blog/post-3.html" ] in
  let r := BaseScraper.run
             (HtmlScraper.init Site.broken_link Site.start "article" "a") 0 in
  HtmlScraper.parse_items Site.broken_link Site.start "article" "a"
    "<three links>" = inr items /\
  List.length (filter (item_fails Site.broken_link Site.start) items) = 1 /\
  List.length (emitted r) = 1 /\
  outcome r = Some (HTTPError "https://example.org/blog/post-2.html" 404).
Proof. repeat split. Qed.

(** ** Listing failures in the full catalog *)

(** C2, as the program has it: nothing in [scrape_all] catches an
    exception.  When the sources of the catalog before one have run to
    their end and the listing page of that one cannot be fetched or
    enumerated, [scrape_all] ends with that exception: its output is the
    output of the sources before, then the progress marker of the source
    that failed, and nothing else; no later source and no PDF is run. *)
Theorem listing_failure_ends_scrape_all
  (W : World) (pre post : list Source) (src : Source) (e : exn) (s : nat) :
  PREDEFINED_SOURCES = pre ++ src :: post ->
  outcome (scrape_sources W pre s) = None ->
  listing_fails W src e ->
  let r := scrape_all W s in
  outcome r = Some e /\
  emitted r = emitted (scrape_sources W pre s) ++ [html_marker src] /\
  final r = final (scrape_sources W pre s).
Proof.
  intros Hcat Hpre Hsrc r. subst r. unfold scrape_all. rewrite Hcat.
  erewrite andthen_stops by (apply scrape_sources_stop; eassumption).
  repeat split.
Qed.

Lemma listing_failure_ends_scrape_all_witness :
  let r := scrape_all Site.second_down 0 in
  outcome r = Some (RequestException "https://interviewing.io/topics#companies") /\
  emitted r =
    emitted (scrape_sources Site.second_down (firstn 1 PREDEFINED_SOURCES) 0)
    ++ [ "--- SCRAPING company_guides (https://interviewing.io/topics#companies) ---" ] /\
  final r = 1.
Proof.
  apply (listing_failure_ends_scrape_all Site.second_down
           (firstn 1 PREDEFINED_SOURCES) (skipn 2 PREDEFINED_SOURCES)
           (catalog_entry 1)
           (RequestException "https://interviewing.io/topics#companies") 0).
  - reflexivity.
  - reflexivity.
  - left. reflexivity.
Defined.

(** C2 as it is written fails: the listings of the first three sources do
    not answer, nothing else fails, and the progress marker of the last
    source, whose listing and item answer, is not written: the command has
    ended at the first listing. *)
Lemma listing_failure_aborts_catalog :
  ~ skips_only_failed_source Site.first_down.
Proof.
  intro H.
  assert (Hall : forall src, In src PREDEFINED_SOURCES ->
                             only_listing_fails Site.first_down src).
  { intros src [<-|[<-|[<-|[<-|[]]]]].
    - left. eexists. left. reflexivity.
    - left. eexists. left. reflexivity.
    - left. eexists. left. reflexivity.
    - right. intro s. cbn [src_start_url src_list_sel src_link_sel].
      rewrite (run_one_page
                 (HtmlScraper.init Site.first_down
                    "https://nilmamano.com/blog/category/dsa" "article" "a")
                 "https://nilmamano.com/blog/category/dsa"
                 "<dsa>" ["https://nilmamano.com/blog/b"] s
                 eq_refl eq_refl eq_refl).
      apply (items_loop_all _ (fun _ _ => True)).
      repeat constructor. apply html_succeeds. reflexivity. }
  specialize (H Hall 0 (catalog_entry 3)).
  assert (Hin : In (catalog_entry 3) PREDEFINED_SOURCES) by (simpl; auto).
  specialize (H Hin). vm_compute in H.
  destruct H as [H|[]]. discriminate H.
Qed.

(** ** The fields of a record *)

(** C3, as the program has it: a record of an HTML run has the seven keys
    [id], [source], [url], [title], [author], [date], [content], in this
    order, so each optional field is there, with a string or with null, and
    [content] is a string; a record of a PDF run has the three keys [id],
    [source], [content] and none of the optional fields, and [content] is
    a string. *)
Theorem record_keys (W : World) (s : nat) :
  (forall start_url list_sel link_sel,
     Forall (fun d => keys d = html_keys /\
                      has_all_fields d = true /\
                      is_str (lookup "content" d))
       (emitted (BaseScraper.run
                   (HtmlScraper.init W start_url list_sel link_sel) s))) /\
  (forall pdf_path,
     Forall (fun d => keys d = pdf_keys /\
                      Forall (fun k => lookup k d = None) optional_keys /\
                      is_str (lookup "content" d))
       (emitted (BaseScraper.run (PDFScraper.init W pdf_path) s))).
Proof.
  split.
  - intros start_url list_sel link_sel.
    apply run_emits_only. intros item s0 d s1 E. simpl in E.
    apply html_record_of_outline in E. destruct E as (html & _ & ->).
    repeat split. eexists; reflexivity.
  - intro pdf_path.
    apply run_emits_only. intros item s0 d s1 E. simpl in E.
    rewrite pdf_extract_content_eq in E. unfold pdf_outline in E.
    destruct (extract_text W item) as [e|text]; [discriminate|].
    injection E as <- _.
    repeat split; [repeat constructor|eexists; reflexivity].
Qed.

(** C3 as it is written fails: the record of a PDF has no [url] key (nor
    [title], [author], [date]). *)
Lemma pdf_record_lacks_optional_fields :
  ~ every_record_has_all_fields Site.odd.
Proof.
  intros [_ H]. specialize (H "data/pdfs/notes.pdf" 0).
  set (ds := emitted _) in H. vm_compute in ds. subst ds.
  apply Forall_inv in H. vm_compute in H. discriminate H.
Qed.

(** The line written for that record does not mention [url]. *)
Example pdf_line_has_no_url :
  map (fun line => Py.contains line (Json.dumps_str "url"))
      (emitted (scrape_pdf Site.odd "data/pdfs/notes.pdf" 0)) = [false].
Proof. reflexivity. Qed.

(** ** One record per discovered item *)




(** ** Enumeration of a listing page *)





(** ** Anchors that are skipped, references that are kept *)

(** C9: [parse_items] skips the anchors whose [href] is absent or empty:
    its items are, one for one and in order, those of the selected
    elements that have a non-empty [href].  An [href] that begins with
    http is the item itself, unresolved.  Every item is a non-empty
    string, [urljoin] returning a non-empty string when the reference is
    not empty. *)
Theorem parse_items_skips_and_passes
  (W : World) (start_url list_sel link_sel page_content : string)
  (items : list string) :
  (forall href, href <> ""%string -> urljoin W start_url href <> ""%string) ->
  HtmlScraper.parse_items W start_url list_sel link_sel page_content
    = inr items ->
  Forall2
    (fun a item =>
       exists href,
         get W a "href" = Some href /\ href <> ""%string /\
         (Py.startswith href "http" = true -> item = href))
    (filter (has_href W) (anchors W list_sel link_sel page_content))
    items /\
  (forall a,
     get W a "href" = None \/ get W a "href" = Some ""%string ->
     ~ In a (filter (has_href W)
                    (anchors W list_sel link_sel page_content))) /\
  Forall (fun item => item <> ""%string) items.
Proof.
  intros Hjoin Hp. rewrite parse_items_eq in Hp.
  destruct (sv_valid W (list_sel ++ " " ++ link_sel)%string); [|discriminate].
  injection Hp as <-.
  split; [|split].
  - eapply Forall2_impl; [|apply Forall2_map_filter].
    intros a item [Ha ->].
    apply has_href_true in Ha. destruct Ha as (href & E & Hne).
    exists href. split; [exact E|]. split; [exact Hne|].
    unfold href_of, locator. rewrite E. now intros ->.
  - intros a Ha Hin. apply filter_In in Hin. destruct Hin as [_ Hin].
    apply has_href_true in Hin. destruct Hin as (href & E & Hne).
    destruct Ha as [Ha|Ha]; rewrite Ha in E; [discriminate|].
    injection E as <-. now apply Hne.
  - apply Forall_forall. intros item Hin.
    apply in_map_iff in Hin. destruct Hin as (a & <- & Ha).
    apply filter_In in Ha. destruct Ha as [_ Ha].
    apply has_href_true in Ha. destruct Ha as (href & E & Hne).
    unfold href_of, locator. rewrite E.
    destruct (Py.startswith href "http"); [exact Hne|now apply Hjoin].
Qed.

Lemma parse_items_skips_and_passes_witness :
  let items := [ "https://example.org/blog/post-1.html";
                 "https://other.example/x";
                 "http-faq.html" ] in
  Forall2
    (fun a item =>
       exists href,
         get Site.odd a "href" = Some href /\ href <> ""%string /\
         (Py.startswith href "http" = true -> item = href))
    (filter (has_href Site.odd)
            (anchors Site.odd "article" "a" "<odd links>"))
    items /\
  (forall a,
     get Site.odd a "href" = None \/ get Site.odd a "href" = Some ""%string ->
     ~ In a (filter (has_href Site.odd)
                    (anchors Site.odd "article" "a" "<odd links>"))) /\
  Forall (fun item => item <> ""%string) items.
Proof.
  apply (parse_items_skips_and_passes Site.odd Site.start "article" "a"
           "<odd links>").
  - intros href. apply join_url_nonempty.
  - reflexivity.
Defined.

(** ** PDF files *)

(** C6: when the file of a PDF source can be read and the PDF library
    extracts its text, the run yields exactly one record and ends
    normally; the [content] of the record is the extracted text, its
    [source] is the base name of the path: the path without its directory,
    with no slash in it.  [scrape_pdf] writes the record as one line. *)
Theorem pdf_run_one_record
  (W : World) (pdf_path bytes text : string) (s : nat) :
  open_read W pdf_path = inr bytes ->
  extract_text W pdf_path = inr text ->
  let d := [ ("id", JStr (uuid4 W s));
             ("source", JStr (OsPath.basename pdf_path));
             ("content", JStr text) ] in
  BaseScraper.run (PDFScraper.init W pdf_path) s = ([d], None, S s) /\
  scrape_pdf W pdf_path s = ([Json.dumps d], None, S s) /\
  lookup "content" d = Some (JStr text) /\
  lookup "source" d = Some (JStr (OsPath.basename pdf_path)) /\
  OsPath.has_slash (OsPath.basename pdf_path) = false /\
  exists dir,
    pdf_path = (dir ++ OsPath.basename pdf_path)%string /\
    (dir = ""%string \/ exists d', dir = (d' ++ "/")%string).
Proof.
  intros Ho He d.
  assert (Hrun : BaseScraper.run (PDFScraper.init W pdf_path) s
                 = ([d], None, S s)).
  { rewrite (run_one_page (PDFScraper.init W pdf_path) pdf_path bytes
               [pdf_path] s eq_refl Ho eq_refl).
    unfold items_loop; simpl. rewrite andthen_done_r.
    unfold try_call. rewrite pdf_extract_content_eq.
    unfold pdf_outline. rewrite He. reflexivity. }
  split; [exact Hrun|]. split.
  { unfold scrape_pdf, echo_records, echo_each. cbv zeta.
    rewrite Hrun. reflexivity. }
  split; [reflexivity|]. split; [reflexivity|].
  split; [apply basename_no_slash|apply basename_strips_directory].
Qed.

Lemma pdf_run_one_record_witness :
  let d := [ ("id", JStr "uuid-7");
             ("source", JStr "notes.pdf");
             ("content", JStr "Notes on trees.") ] in
  BaseScraper.run (PDFScraper.init Site.odd "data/pdfs/notes.pdf") 7
    = ([d], None, 8) /\
  scrape_pdf Site.odd "data/pdfs/notes.pdf" 7 = ([Json.dumps d], None, 8) /\
  lookup "content" d = Some (JStr "Notes on trees.") /\
  lookup "source" d = Some (JStr "notes.pdf") /\
  OsPath.has_slash "notes.pdf" = false /\
  exists dir,
    "data/pdfs/notes.pdf" = (dir ++ "notes.pdf")%string /\
    (dir = ""%string \/ exists d', dir = (d' ++ "/")%string).
Proof.
  apply (pdf_run_one_record Site.odd "data/pdfs/notes.pdf" "%PDF-1.4 ..."
           "Notes on trees." 7).
  - reflexivity.
  - reflexivity.
Defined.

(** ** The fields of an item page *)



(** A page with every element, and a page with paragraphs only. *)
Example extract_content_full_page :
  fst (HtmlScraper.extract_content Site.broken_link Site.start
         "https://example.org/blog/post-1.html" 0)
  = inr [ ("id", JStr "uuid-0");
          ("source", JStr "https://example.org/blog/index.html");
          ("url", JStr "https://example.org/blog/post-1.html");
          ("title", JStr "One");
          ("author", JStr "Ada");
          ("date", JStr "2024-01-05");
          ("content", JStr ("First." ++ Py.nl ++ Py.nl ++ "Second.")) ].
Proof. reflexivity. Qed.

Example extract_content_bare_page :
  fst (HtmlScraper.extract_content Site.broken_link Site.start
         "https://example.org/blog/post-3.html" 0)
  = inr [ ("id", JStr "uuid-0");
          ("source", JStr "https://example.org/blog/index.html");
          ("url", JStr "https://example.org/blog/post-3.html");
          ("title", JNull);
          ("author", JNull);
          ("date", JNull);
          ("content", JStr "Bare.") ].
Proof. reflexivity. Qed.

(** ** Running a source again *)

(** C8: a source is run twice on the same pages and files, in one process
    or in two (the second run draws its identifiers from any sequence [u],
    from any draw [s'] on).  The two runs end the same way and yield as
    many records, which agree one by one on every field but [id].  The
    [id]s of a run are the identifiers it draws, one per record and in
    order, whatever the records contain; when the identifiers drawn in
    the two runs are pairwise distinct, as [uuid4] promises, no [id]
    occurs twice and the two records at each position have different
    [id]s. *)
Theorem rerun_same_fields_fresh_ids
  (W : World) (u : nat -> string) (s s' : nat)
  (start_url list_sel link_sel pdf_path : string) (source : World -> Scraper) :
  source = (fun W => HtmlScraper.init W start_url list_sel link_sel) \/
  source = (fun W => PDFScraper.init W pdf_path) ->
  let r1 := BaseScraper.run (source W) s in
  let r2 := BaseScraper.run (source (reseed W u)) s' in
  NoDup (draws W s (List.length (emitted r1)) ++
         map u (seq s' (List.length (emitted r2)))) ->
  outcome r2 = outcome r1 /\
  Forall2 same_but_id (emitted r1) (emitted r2) /\
  ids (emitted r1) =
    map (fun id => Some (JStr id)) (draws W s (List.length (emitted r1))) /\
  ids (emitted r2) =
    map (fun id => Some (JStr id)) (map u (seq s' (List.length (emitted r2)))) /\
  NoDup (ids (emitted r1) ++ ids (emitted r2)) /\
  Forall2 (fun i1 i2 => i1 <> i2) (ids (emitted r1)) (ids (emitted r2)).
Proof.
  intros Hsrc r1 r2 Hnd.
  assert (H : outcome r2 = outcome r1 /\
              Forall2 same_but_id (emitted r1) (emitted r2) /\
              ids (emitted r1) =
                map (fun id => Some (JStr id))
                    (draws W s (List.length (emitted r1))) /\
              ids (emitted r2) =
                map (fun id => Some (JStr id))
                    (draws (reseed W u) s' (List.length (emitted r2))) /\
              (NoDup (draws W s (List.length (emitted r1)) ++
                      draws (reseed W u) s' (List.length (emitted r2))) ->
               NoDup (ids (emitted r1) ++ ids (emitted r2)) /\
               Forall2 (fun i1 i2 => i1 <> i2)
                 (ids (emitted r1)) (ids (emitted r2)))).
  { subst r1 r2. destruct Hsrc as [-> | ->].
    - apply (rerun_outlined W (reseed W u)
               (HtmlScraper.init W start_url list_sel link_sel)
               (HtmlScraper.init (reseed W u) start_url list_sel link_sel)
               (item_outline W start_url) s s').
      + apply html_outlined.
      + apply (html_outlined (reseed W u) start_url list_sel link_sel).
      + reflexivity.
    - apply (rerun_outlined W (reseed W u)
               (PDFScraper.init W pdf_path)
               (PDFScraper.init (reseed W u) pdf_path)
               (pdf_outline W) s s').
      + apply pdf_outlined.
      + apply (pdf_outlined (reseed W u) pdf_path).
      + reflexivity. }
  destruct H as (H1 & H2 & H3 & H4 & H5).
  destruct (H5 Hnd) as [H6 H7].
  repeat split; assumption.
Qed.

Lemma rerun_same_fields_fresh_ids_witness :
  let other := fun n => ("other-" ++ Fixture.decimal n)%string in
  let r1 := BaseScraper.run
              (HtmlScraper.init Site.linked_twice Site.start "article" "a")
              0 in
  let r2 := BaseScraper.run
              (HtmlScraper.init (reseed Site.linked_twice other) Site.start
                 "article" "a")
              0 in
  outcome r2 = outcome r1 /\
  Forall2 same_but_id (emitted r1) (emitted r2) /\
  ids (emitted r1) =
    map (fun id => Some (JStr id))
        (draws Site.linked_twice 0 (List.length (emitted r1))) /\
  ids (emitted r2) =
    map (fun id => Some (JStr id))
        (map other (seq 0 (List.length (emitted r2)))) /\
  NoDup (ids (emitted r1) ++ ids (emitted r2)) /\
  Forall2 (fun i1 i2 => i1 <> i2) (ids (emitted r1)) (ids (emitted r2)).
Proof.
  apply (rerun_same_fields_fresh_ids Site.linked_twice
           (fun n => ("other-" ++ Fixture.decimal n)%string) 0 0
           Site.start "article" "a" ""
           (fun W => HtmlScraper.init W Site.start "article" "a")).
  - left. reflexivity.
  - apply distinct_NoDup. reflexivity.
Defined.

(** The same for a second run of an HTML source that follows the first in
    the same process. *)
Corollary html_rerun_in_process
  (W : World) (start_url list_sel link_sel : string) (s : nat) :
  let self := HtmlScraper.init W start_url list_sel link_sel in
  let r1 := BaseScraper.run self s in
  let r2 := BaseScraper.run self (final r1) in
  outcome r2 = outcome r1 /\
  Forall2 same_but_id (emitted r1) (emitted r2) /\
  (NoDup (draws W s (List.length (emitted r1) + List.length (emitted r2))) ->
   NoDup (ids (emitted r1) ++ ids (emitted r2))).
Proof.
  intro self.
  apply (rerun_in_process W self (item_outline W start_url) s).
  apply html_outlined.
Qed.

(** ** The output of the full catalog *)

(** C10: [scrape_all] writes its progress markers and the diagnostic of
    the missing PDF folder with [typer.echo], as it writes the records:
    they are lines of the same output.  The output begins with the marker
    of the first source, followed by the records of that source; it is the
    output of the HTML sources followed, when they end normally, by the
    output of the PDF part, which is the diagnostic alone when the folder
    is missing.  Every line is a record or one of these lines, none of
    which is a record: the output is never made of records only. *)
Theorem scrape_all_mixes_markers_and_records (W : World) (s : nat) :
  let r := scrape_all W s in
  let first := catalog_entry 0 in
  let html := scrape_sources W PREDEFINED_SOURCES s in
  (exists rest,
     emitted r =
     html_marker first ::
     map Json.dumps
       (emitted (BaseScraper.run
                   (HtmlScraper.init W (src_start_url first)
                      (src_list_sel first) (src_link_sel first)) s))
     ++ rest) /\
  emitted r =
    emitted html ++
    match outcome html with
    | None => emitted (scrape_pdfs W (final html))
    | Some _ => []
    end /\
  (isdir W PDF_FOLDER = false ->
   forall s', scrape_pdfs W s' = ([pdf_folder_not_found], None, s')) /\
  Forall (fun line => is_record_line line \/ is_progress_line line)
         (emitted r) /\
  (forall line, is_progress_line line -> ~ is_record_line line) /\
  ~ Forall is_record_line (emitted r).
Proof.
  intros r first html. subst r first html.
  split; [apply scrape_all_begins|].
  split; [apply scrape_all_eq|].
  split; [intros H s'; now apply scrape_pdfs_no_folder|].
  split; [apply scrape_all_lines|].
  split; [apply progress_line_not_record|].
  destruct (scrape_all_begins W s) as [rest E]. rewrite E.
  intro H. apply Forall_inv in H.
  now apply html_marker_not_record in H.
Qed.

Lemma scrape_all_mixes_markers_and_records_witness :
  scrape_pdfs Site.all_up 4 = (["PDF folder not found: data/pdfs"], None, 4) /\
  ~ Forall is_record_line (emitted (scrape_all Site.all_up 0)).
Proof.
  destruct (scrape_all_mixes_markers_and_records Site.all_up 0)
    as (_ & _ & H & _ & _ & Hn).
  split; [apply H; reflexivity|exact Hn].
Defined.

(** The lines of a whole run, records marked [true]: without the folder,
    and with a folder of two PDF files and a text file. *)
Example scrape_all_lines_without_folder :
  let r := scrape_all Site.all_up 0 in
  map (fun line => Py.startswith line "{") (emitted r)
  = [false; true; false; true; false; true; false; true; false] /\
  last (emitted r) "" = "PDF folder not found: data/pdfs" /\
  outcome r = None.
Proof. repeat split. Qed.

Example scrape_all_lines_with_folder :
  let r := scrape_all Site.all_up_with_pdfs 0 in
  map (fun line => Py.startswith line "{") (emitted r)
  = [false; true; false; true; false; true; false; true;
     false; true; false; true] /\
  nth 8 (emitted r) "" = "--- SCRAPING PDF A.PDF ---" /\
  nth 10 (emitted r) "" = "--- SCRAPING PDF b.pdf ---" /\
  outcome r = None.
Proof. repeat split. Qed.

(** * Further properties *)

(** ** The lines of a record *)

Lemma no_control_app (a b : string) :
  no_control (a ++ b)%string = no_control a && no_control b.
Proof.
  induction a as [|c a IH]; simpl; [reflexivity|].
  now rewrite IH, andb_assoc.
Qed.

Lemma escape_char_no_control (c : ascii) :
  no_control (Json.escape_char c) = true.
Proof. destruct c as [[] [] [] [] [] [] [] []]; reflexivity. Qed.

Lemma escape_no_control (s : string) : no_control (Json.escape s) = true.
Proof.
  induction s as [|c s IH]; simpl; [reflexivity|].
  now rewrite no_control_app, escape_char_no_control, IH.
Qed.

Lemma dumps_item_no_control (kv : string * jvalue) :
  no_control (Json.dumps_item kv) = true.
Proof.
  destruct kv as [k [|v]]; unfold Json.dumps_item, Json.dumps_value,
    Json.dumps_str; simpl fst; simpl snd;
    rewrite !no_control_app, !escape_no_control; reflexivity.
Qed.

Lemma join_no_control (sep : string) (l : list string) :
  no_control sep = true ->
  Forall (fun x => no_control x = true) l ->
  no_control (Py.join sep l) = true.
Proof.
  intros Hsep H. induction H as [|x l Hx Hl IH]; [reflexivity|].
  unfold Py.join in *. simpl. destruct l as [|y l]; [exact Hx|].
  now rewrite !no_control_app, Hx, Hsep, IH.
Qed.

Lemma dumps_no_control (d : dict) : no_control (Json.dumps d) = true.
Proof.
  unfold Json.dumps. rewrite !no_control_app.
  rewrite join_no_control; [reflexivity|reflexivity|].
  apply Forall_forall. intros x Hx. apply in_map_iff in Hx.
  destruct Hx as (kv & <- & _). apply dumps_item_no_control.
Qed.

(** X1: whatever the pages and files contain, every line that
    [scrape_html] or [scrape_pdf] writes is a serialized record, and it has
    no control character in it, so no line break: the output of these two
    commands is one JSON object per line and nothing else. *)
Theorem single_source_output_is_json_lines (W : World) :
  (forall start_url list_sel link_sel,
     emits_only (fun line => is_record_line line /\ no_control line = true)
                (scrape_html W start_url list_sel link_sel)) /\
  (forall pdf_path,
     emits_only (fun line => is_record_line line /\ no_control line = true)
                (scrape_pdf W pdf_path)).
Proof.
  split; intros; apply emits_only_echo_each; intro d;
    (split; [now exists d|apply dumps_no_control]).
Qed.

(** ** Strings *)

Lemma string_length_app (a b : string) :
  String.length (a ++ b)%string = String.length a + String.length b.
Proof. induction a as [|c a IH]; simpl; congruence. Qed.

Lemma app_assoc_string (a b c : string) :
  ((a ++ b) ++ c)%string = (a ++ b ++ c)%string.
Proof. induction a as [|x a IH]; simpl; congruence. Qed.

Lemma substring_whole (s : string) :
  String.substring 0 (String.length s) s = s.
Proof. induction s as [|c s IH]; simpl; congruence. Qed.

Lemma substring_split (s : string) (n : nat) :
  n <= String.length s ->
  s = (String.substring 0 n s
       ++ String.substring n (String.length s - n) s)%string.
Proof.
  revert n; induction s as [|c s IH]; intros [|n] H; simpl in *.
  - reflexivity.
  - lia.
  - now rewrite substring_whole.
  - f_equal. apply IH. lia.
Qed.

Lemma substring_after (pre suf : string) :
  String.substring (String.length pre) (String.length suf) (pre ++ suf)
  = suf.
Proof.
  induction pre as [|c pre IH]; simpl.
  - apply substring_whole.
  - exact IH.
Qed.

Lemma endswith_spec (s suf : string) :
  Py.endswith s suf = true <-> exists pre, s = (pre ++ suf)%string.
Proof.
  unfold Py.endswith. split.
  - intro H. apply andb_prop in H. destruct H as [Hlen Heq].
    apply Nat.leb_le in Hlen. apply String.eqb_eq in Heq.
    exists (String.substring 0 (String.length s - String.length suf) s).
    pose proof (substring_split s (String.length s - String.length suf)
                  ltac:(lia)) as E.
    replace (String.length s - (String.length s - String.length suf))
      with (String.length suf) in E by lia.
    now rewrite Heq in E.
  - intros [pre ->]. rewrite string_length_app. apply andb_true_intro.
    split.
    + apply Nat.leb_le. lia.
    + replace (String.length pre + String.length suf - String.length suf)
        with (String.length pre) by lia.
      rewrite substring_after. apply String.eqb_refl.
Qed.



Lemma has_slash_app (a b : string) :
  OsPath.has_slash (a ++ b) = OsPath.has_slash a || OsPath.has_slash b.
Proof.
  induction a as [|c a IH]; simpl; [reflexivity|].
  now rewrite IH, orb_assoc.
Qed.

Lemma basename_plain (b : string) :
  OsPath.has_slash b = false -> OsPath.basename b = b.
Proof.
  destruct b as [|c r]; [reflexivity|]. simpl. intro H.
  apply orb_false_elim in H. destruct H as [Hc Hr]. now rewrite Hr, Hc.
Qed.

Lemma basename_after_slash (a b : string) :
  OsPath.has_slash b = false ->
  OsPath.basename (a ++ "/" ++ b) = b.
Proof.
  intro Hb. induction a as [|c a IH].
  - simpl. now rewrite Hb.
  - simpl. rewrite has_slash_app. simpl.
    now rewrite orb_true_r.
Qed.

Lemma startswith_slash (b : string) :
  OsPath.has_slash b = false -> Py.startswith b "/" = false.
Proof.
  destruct b as [|c r]; [reflexivity|]. cbn [OsPath.has_slash]. intro H.
  apply orb_false_elim in H. destruct H as [Hc _].
  unfold Py.startswith. cbn [String.prefix].
  destruct (ascii_dec "/"%char c) as [<-|_]; [|reflexivity].
  rewrite Ascii.eqb_refl in Hc. discriminate.
Qed.

(** ** Where the records of a run come from *)

Lemma items_loop_emitted_from (self : Scraper) (items : list string)
  (s : nat) :
  Forall (fun d => exists item s0 s1,
                     In item items /\
                     extract_content self item s0 = (inr d, s1))
         (emitted (items_loop self items s)).
Proof.
  revert s; induction items as [|item items IH]; intro s.
  - constructor.
  - unfold items_loop; simpl. fold (items_loop self items).
    unfold andthen, try_call, emit.
    destruct (extract_content self item s) as [[e|d] s'] eqn:E.
    + constructor.
    + specialize (IH s').
      destruct (items_loop self items s') as [[ys o] s'']. simpl.
      constructor.
      * exists item, s, s'. split; [now left|exact E].
      * eapply Forall_impl; [|exact IH].
        intros d' (i & s0 & s1 & Hi & Hd). exists i, s0, s1.
        split; [now right|exact Hd].
Qed.

Lemma run_emitted_from (self : Scraper) (page : string)
  (P : dict -> Prop) (s : nat) :
  list_pages self = [page] ->
  (forall content items item s0 d s1,
     fetch_page self page = inr content ->
     parse_items self content = inr items ->
     In item items ->
     extract_content self item s0 = (inr d, s1) -> P d) ->
  Forall P (emitted (BaseScraper.run self s)).
Proof.
  intros Hl H.
  destruct (fetch_page self page) as [e|content] eqn:Hf.
  { rewrite (run_fetch_fails self page e s Hl Hf). constructor. }
  destruct (parse_items self content) as [e|items] eqn:Hp.
  { rewrite (run_parse_fails self page content e s Hl Hf Hp). constructor. }
  rewrite (run_one_page self page content items s Hl Hf Hp).
  eapply Forall_impl; [|apply items_loop_emitted_from].
  intros d (item & s0 & s1 & Hi & Hd).
  eapply H; eauto.
Qed.

(** ** os.path.join and os.path.basename *)

(** X2: the base name of a path that [os.path.join] makes from a folder and
    a name without a slash is that name, whatever the folder.  So the
    [source] of every record that a run on such a path yields is the file
    name: in [scrape_all], the name that the marker before it shows. *)
Theorem basename_of_joined_name (W : World) (folder fname : string) (s : nat) :
  OsPath.has_slash fname = false ->
  OsPath.basename (OsPath.join folder fname) = fname /\
  Forall (fun d => lookup "source" d = Some (JStr fname))
    (emitted (BaseScraper.run
                (PDFScraper.init W (OsPath.join folder fname)) s)).
Proof.
  intro H.
  assert (E : OsPath.basename (OsPath.join folder fname) = fname).
  { unfold OsPath.join. rewrite (startswith_slash fname H).
    destruct folder as [|c folder]; [now apply basename_plain|].
    cbn [Py.truthy negb orb].
    destruct (Py.endswith (String c folder) "/") eqn:Hend.
    - apply endswith_spec in Hend. destruct Hend as [pre ->].
      rewrite app_assoc_string. now apply basename_after_slash.
    - now apply basename_after_slash. }
  split; [exact E|].
  apply (run_emitted_from _ (OsPath.join folder fname)); [reflexivity|].
  intros content items item s0 d s1 _ Hp Hi Hd.
  injection Hp as <-. destruct Hi as [<-|[]].
  simpl in Hd. rewrite pdf_extract_content_eq in Hd.
  unfold pdf_outline in Hd.
  destruct (extract_text W (OsPath.join folder fname)) as [e|text];
    [discriminate|].
  injection Hd as <- _. cbn [lookup]. simpl. now rewrite E.
Qed.

Lemma basename_of_joined_name_witness :
  OsPath.basename (OsPath.join PDF_FOLDER "A.PDF") = "A.PDF" /\
  Forall (fun d => lookup "source" d = Some (JStr "A.PDF"))
    (emitted (BaseScraper.run
                (PDFScraper.init Site.all_up_with_pdfs
                   (OsPath.join PDF_FOLDER "A.PDF")) 0)).
Proof.
  apply (basename_of_joined_name Site.all_up_with_pdfs PDF_FOLDER "A.PDF" 0).
  reflexivity.
Defined.

(** ** The test on the file names *)


(** Names that pass the test and names that do not. *)
Example pdf_names :
  map is_pdf_name ["a.pdf"; "A.PDF"; "b.Pdf"; ".pdf"; "pdf"; "a.pdf.txt";
                   "a.pdf "; ""]
  = [true; true; true; true; false; false; false; false].
Proof. reflexivity. Qed.

(** ** sorted *)

Lemma ascii_compare_lt_trans (a b c : ascii) :
  Ascii.compare a b = Lt -> Ascii.compare b c = Lt -> Ascii.compare a c = Lt.
Proof.
  unfold Ascii.compare. rewrite !N.compare_lt_iff. apply N.lt_trans.
Qed.

Lemma string_compare_trans (a b c : string) :
  String.compare a b <> Gt -> String.compare b c <> Gt ->
  String.compare a c <> Gt.
Proof.
  revert b c; induction a as [|x a IH]; intros [|y b] [|z c] Hab Hbc;
    simpl in *; try congruence.
  destruct (Ascii.compare x y) eqn:Exy; try congruence;
    destruct (Ascii.compare y z) eqn:Eyz; try congruence.
  - apply Ascii.compare_eq_iff in Exy, Eyz. subst.
    assert (E : Ascii.compare z z = Eq).
    { unfold Ascii.compare. apply N.compare_refl. }
    rewrite E. eapply IH; eassumption.
  - apply Ascii.compare_eq_iff in Exy. subst. now rewrite Eyz.
  - apply Ascii.compare_eq_iff in Eyz. subst. now rewrite Exy.
  - now rewrite (ascii_compare_lt_trans x y z Exy Eyz).
Qed.

Lemma leb_trans (a b c : string) :
  String.leb a b = true -> String.leb b c = true -> String.leb a c = true.
Proof.
  unfold String.leb. intros Hab Hbc.
  pose proof (string_compare_trans a b c) as H.
  destruct (String.compare a b); try discriminate;
    destruct (String.compare b c); try discriminate;
    destruct (String.compare a c); try reflexivity;
    exfalso; apply H; congruence.
Qed.

Lemma leb_false_flip (a b : string) :
  String.leb a b = false -> String.leb b a = true.
Proof.
  intro H. destruct (String.leb_total a b) as [E|E]; congruence.
Qed.

Lemma insert_sorted_perm (x : string) (l : list string) :
  Permutation (Py.insert_sorted x l) (x :: l).
Proof.
  induction l as [|y l IH]; simpl; [reflexivity|].
  destruct (String.leb x y); [reflexivity|].
  rewrite IH. apply perm_swap.
Qed.

Lemma sorted_perm (l : list string) : Permutation (Py.sorted l) l.
Proof.
  induction l as [|x l IH]; simpl; [reflexivity|].
  fold (Py.sorted l). rewrite insert_sorted_perm. now constructor.
Qed.

Lemma insert_sorted_ascending (x : string) (l : list string) :
  ascending l -> ascending (Py.insert_sorted x l).
Proof.
  unfold ascending. intro H. induction H as [|y l Hl IH Hy]; simpl.
  - repeat constructor.
  - destruct (String.leb x y) eqn:E.
    + constructor; [now constructor|].
      constructor; [exact E|].
      eapply Forall_impl; [|exact Hy].
      intros z Hz. eapply leb_trans; eassumption.
    + constructor; [exact IH|].
      rewrite insert_sorted_perm. constructor; [|exact Hy].
      now apply leb_false_flip.
Qed.

Lemma sorted_ascending (l : list string) : ascending (Py.sorted l).
Proof.
  induction l as [|x l IH]; simpl; [constructor|].
  fold (Py.sorted l). now apply insert_sorted_ascending.
Qed.

Lemma ascending_unique (l l' : list string) :
  ascending l -> ascending l' -> Permutation l l' -> l = l'.
Proof.
  unfold ascending. intro H; revert l'.
  induction H as [|x l Hl IH Hx]; intros l' H' P.
  - apply Permutation_nil in P. now subst.
  - destruct l' as [|y l'].
    { apply Permutation_sym, Permutation_nil in P. discriminate. }
    inversion H' as [|? ? Hl' Hy]; subst.
    assert (E : x = y).
    { assert (Hxin : In x (y :: l'))
        by (eapply Permutation_in; [exact P|now left]).
      assert (Hyin : In y (x :: l))
        by (eapply Permutation_in;
            [apply Permutation_sym; exact P|now left]).
      destruct Hxin as [->|Hxin]; [reflexivity|].
      destruct Hyin as [->|Hyin]; [reflexivity|].
      apply String.leb_antisym.
      - rewrite Forall_forall in Hx. now apply Hx.
      - rewrite Forall_forall in Hy. now apply Hy. }
    subst y. f_equal. apply IH; [exact Hl'|].
    eapply Permutation_cons_inv; exact P.
Qed.

(** X4: [sorted] returns the names it is given, each as often as it is
    given, in ascending order; and what it returns does not depend on the
    order in which it is given them.  So the order in which [scrape_all]
    takes the files of the folder does not depend on the order in which
    [os.listdir] lists them. *)
Theorem sorted_listing (names : list string) :
  Permutation (Py.sorted names) names /\
  ascending (Py.sorted names) /\
  (forall names', Permutation names names' ->
                  Py.sorted names' = Py.sorted names).
Proof.
  split; [apply sorted_perm|]. split; [apply sorted_ascending|].
  intros names' P. apply ascending_unique; try apply sorted_ascending.
  rewrite !sorted_perm. now apply Permutation_sym.
Qed.

(** ** The run of a PDF source *)

Lemma pdf_run_eq (W : World) (pdf_path : string) (s : nat) :
  BaseScraper.run (PDFScraper.init W pdf_path) s =
  match open_read W pdf_path with
  | inl e => ([], Some e, s)
  | inr _ =>
      match extract_text W pdf_path with
      | inl e => ([], Some e, s)
      | inr text =>
          ([ [ ("id", JStr (uuid4 W s));
               ("source", JStr (OsPath.basename pdf_path));
               ("content", JStr text) ] ], None, S s)
      end
  end.
Proof.
  destruct (open_read W pdf_path) as [e|bytes] eqn:Ho.
  - now apply (run_fetch_fails (PDFScraper.init W pdf_path) pdf_path).
  - rewrite (run_one_page (PDFScraper.init W pdf_path) pdf_path bytes
               [pdf_path] s eq_refl Ho eq_refl).
    unfold items_loop; simpl. rewrite andthen_done_r.
    unfold try_call. rewrite pdf_extract_content_eq. unfold pdf_outline.
    destruct (extract_text W pdf_path); reflexivity.
Qed.

(** X5: the run of a PDF source yields one record or none, never more.  It
    yields one, and ends normally, exactly when the file can be opened and
    pdfminer extracts a text from it.  When the file cannot be opened the
    run ends with the exception of [open], whatever pdfminer would do with
    the path; when it can, and the extraction fails, with the exception of
    pdfminer.  A run without a record draws no identifier. *)
Theorem pdf_run_outcomes (W : World) (pdf_path : string) (s : nat) :
  let r := BaseScraper.run (PDFScraper.init W pdf_path) s in
  List.length (emitted r) <= 1 /\
  (List.length (emitted r) = 1 <->
   is_ok (open_read W pdf_path) = true /\
   is_ok (extract_text W pdf_path) = true) /\
  (outcome r = None <-> List.length (emitted r) = 1) /\
  (forall e, open_read W pdf_path = inl e -> outcome r = Some e) /\
  (forall bytes e,
     open_read W pdf_path = inr bytes ->
     extract_text W pdf_path = inl e -> outcome r = Some e) /\
  (emitted r = [] -> final r = s).
Proof.
  cbv zeta. rewrite pdf_run_eq.
  destruct (open_read W pdf_path) as [e|bytes];
    [|destruct (extract_text W pdf_path) as [e|text]];
    unfold emitted, outcome, final; simpl;
    repeat split; intros; try lia; try congruence; try tauto;
    try (destruct H; discriminate).
Qed.

(** A folder entry that cannot be opened, although pdfminer has a text for
    the path. *)
Example pdf_run_unreadable :
  let W := Fixture.world
             {| Fixture.web := []; Fixture.markup := [];
                Fixture.files := [];
                Fixture.pdf_text := [("gone.pdf", "Text")];
                Fixture.folders := [] |} in
  BaseScraper.run (PDFScraper.init W "gone.pdf") 3
  = ([], Some (OSError "gone.pdf"), 3).
Proof. reflexivity. Qed.

(** ** The PDF part of scrape_all *)





(** ** Where the records of an HTML run come from *)

(** X7: whether the run of an HTML source ends normally or not, every
    record it yields has the start URL of the source as its [source], and
    as its [url] one of the item locators that [parse_items] returned for
    the listing page, the page of which was fetched: a run yields no
    record for a URL that the listing does not expose, nor for a page
    that could not be fetched. *)
Theorem html_records_attributed
  (W : World) (start_url list_sel link_sel : string) (s : nat) :
  Forall
    (fun d =>
       lookup "source" d = Some (JStr start_url) /\
       exists listing items item,
         HtmlScraper.fetch_page W start_url = inr listing /\
         HtmlScraper.parse_items W start_url list_sel link_sel listing
           = inr items /\
         In item items /\
         lookup "url" d = Some (JStr item) /\
         is_ok (HtmlScraper.fetch_page W item) = true)
    (emitted (BaseScraper.run
                (HtmlScraper.init W start_url list_sel link_sel) s)).
Proof.
  apply (run_emitted_from _ start_url); [reflexivity|].
  intros listing items item s0 d s1 Hf Hp Hi Hd. simpl in Hf, Hp, Hd.
  apply html_record_of_outline in Hd. destruct Hd as (html & Hh & ->).
  split; [reflexivity|].
  exists listing, items, item. repeat split; try assumption.
  now rewrite Hh.
Qed.

(** ** The statuses that fetch_page accepts *)

(** X8: [fetch_page] returns the body of the response exactly when
    [requests.get] returns a response whose status is below 400 or is 600
    or more; for a status from 400 to 599 it raises an [HTTPError] with
    the URL and the status, and an exception of [requests.get] itself
    leaves [fetch_page] as it is. *)
Theorem fetch_page_statuses (W : World) (url : string) :
  (forall body,
     HtmlScraper.fetch_page W url = inr body <->
     exists resp,
       requests_get W url = inr resp /\ text resp = body /\
       (status_code resp < 400 \/ 600 <= status_code resp)%Z) /\
  (forall resp,
     requests_get W url = inr resp ->
     (400 <= status_code resp < 600)%Z ->
     HtmlScraper.fetch_page W url
       = inl (HTTPError url (status_code resp))) /\
  (forall e,
     requests_get W url = inl e -> HtmlScraper.fetch_page W url = inl e).
Proof.
  unfold HtmlScraper.fetch_page, Requests.raise_for_status, rbind, ok, throw.
  split; [|split].
  - intro body. destruct (requests_get W url) as [e|resp].
    + split; [discriminate|]. intros (r & H & _). discriminate.
    + destruct (400 <=? status_code resp)%Z eqn:E1;
        destruct (status_code resp <? 600)%Z eqn:E2; simpl;
        (split;
         [ intro H; try discriminate; injection H as <-; exists resp;
           repeat split; lia
         | intros (r & H & <- & Hs); injection H as <-;
           try reflexivity; lia ]).
  - intros resp -> [H1 H2].
    apply Z.leb_le in H1. apply Z.ltb_lt in H2. now rewrite H1, H2.
  - now intros e ->.
Qed.

(** ** scrape_all and scrape_html *)

Lemma scrape_source_as_html (W : World) (src : Source) (s : nat) :
  let one := scrape_html W (src_start_url src) (src_list_sel src)
                         (src_link_sel src) s in
  scrape_source W src s
  = (html_marker src :: emitted one, outcome one, final one).
Proof.
  cbv zeta. rewrite scrape_source_eq. cbv zeta.
  unfold scrape_html, echo_records, echo_each.
  now destruct (BaseScraper.run _ s) as [[ds o] s'].
Qed.

Lemma scrape_sources_split (W : World) (pre post : list Source)
  (src : Source) (s : nat) (xs : list string) (s1 : nat) :
  scrape_sources W pre s = (xs, None, s1) ->
  let one := scrape_html W (src_start_url src) (src_list_sel src)
                         (src_link_sel src) s1 in
  scrape_sources W (pre ++ src :: post) s =
  match outcome one with
  | Some e => (xs ++ html_marker src :: emitted one, Some e, final one)
  | None =>
      let r := scrape_sources W post (final one) in
      (xs ++ html_marker src :: emitted one ++ emitted r,
       outcome r, final r)
  end.
Proof.
  intros E0 one. unfold scrape_sources in *. rewrite for_each_app.
  rewrite (andthen_goes_on _ _ _ _ _ E0).
  cbn [for_each]. unfold andthen.
  rewrite scrape_source_as_html. fold one.
  destruct one as [[L [e|]] s2]; unfold emitted, outcome, final; simpl;
    [reflexivity|].
  now destruct (for_each post (scrape_source W) s2) as [[ys o] s3].
Qed.

(** X9: [scrape_all] runs each source of the catalog as the command
    [scrape_html] would run it with the selectors of the catalog.  When
    the sources before one have ended normally, the output goes on with
    the marker of that source and then with exactly the lines that
    [scrape_html] writes for its start URL and selectors from the same
    draw of identifiers on; and when that run ends with an exception,
    [scrape_all] ends with it and writes nothing more. *)
Theorem scrape_all_runs_scrape_html
  (W : World) (pre post : list Source) (src : Source) (s : nat) :
  PREDEFINED_SOURCES = pre ++ src :: post ->
  outcome (scrape_sources W pre s) = None ->
  let before := scrape_sources W pre s in
  let one := scrape_html W (src_start_url src) (src_list_sel src)
                         (src_link_sel src) (final before) in
  exists rest,
    emitted (scrape_all W s)
      = emitted before ++ html_marker src :: emitted one ++ rest /\
    (forall e, outcome one = Some e ->
               rest = [] /\ outcome (scrape_all W s) = Some e).
Proof.
  intros Hcat Hpre before one.
  destruct (scrape_sources W pre s) as [[xs o] s1] eqn:E0.
  unfold outcome in Hpre; simpl in Hpre; subst o.
  subst before. unfold final in one; simpl in one.
  unfold scrape_all, andthen. rewrite Hcat.
  rewrite (scrape_sources_split W pre post src s xs s1 E0). fold one.
  unfold emitted at 2; simpl fst.
  destruct (outcome one) as [e|] eqn:Eo.
  - exists []. unfold emitted at 1, outcome at 1; simpl.
    rewrite app_nil_r. split; [reflexivity|].
    intros e' H. injection H as <-. now split.
  - cbv zeta.
    destruct (scrape_sources W post (final one)) as [[ys o] s3].
    unfold emitted at 3, outcome, final at 2; simpl.
    destruct o as [e|].
    + exists ys. unfold emitted at 1; simpl. split; [reflexivity|].
      discriminate.
    + destruct (scrape_pdfs W s3) as [[zs o'] s4].
      exists (ys ++ zs). unfold emitted at 1; simpl.
      split; [|discriminate].
      rewrite <- !app_assoc. simpl. now rewrite <- !app_assoc.
Qed.

Lemma scrape_all_runs_scrape_html_witness :
  let before := scrape_sources Site.all_up (firstn 2 PREDEFINED_SOURCES) 0 in
  let one := scrape_html Site.all_up
               "https://interviewing.io/learn#interview-guides"
               ".markdown-content" "a[href*='/learn/']" (final before) in
  exists rest,
    emitted (scrape_all Site.all_up 0)
      = emitted before
        ++ "--- SCRAPING interview_guides (https://interviewing.io/learn#interview-guides) ---"
           :: emitted one ++ rest /\
    (forall e, outcome one = Some e ->
               rest = [] /\ outcome (scrape_all Site.all_up 0) = Some e).
Proof.
  apply (scrape_all_runs_scrape_html Site.all_up
           (firstn 2 PREDEFINED_SOURCES) (skipn 3 PREDEFINED_SOURCES)
           (catalog_entry 2) 0).
  - reflexivity.
  - reflexivity.
Defined.

(** ** The order of the records of a run *)

Lemma pages_loop_all (self : Scraper) (R : string -> dict -> Prop)
  (pages : list string) (itemss : list (list string)) (s : nat) :
  Forall2 (fun page items =>
             exists content,
               fetch_page self page = inr content /\
               parse_items self content = inr items)
          pages itemss ->
  Forall (extracts self R) (concat itemss) ->
  let r := for_each pages (fun page =>
             try_result (fetch_page self page) (fun content =>
               try_result (parse_items self content) (fun items =>
                 items_loop self items))) s in
  outcome r = None /\ Forall2 R (concat itemss) (emitted r).
Proof.
  intro H; revert s.
  induction H as [|page items pages itemss (content & Hf & Hp) _ IH];
    intros s Hall; cbv zeta.
  - split; [reflexivity|constructor].
  - simpl in Hall. apply Forall_app in Hall. destruct Hall as [H1 H2].
    cbn [for_each]. unfold andthen. rewrite Hf. cbn [try_result].
    rewrite Hp. cbn [try_result].
    destruct (items_loop_all self R items s H1) as [Ho Hr].
    destruct (items_loop self items s) as [[xs o] s1].
    unfold outcome in Ho; simpl in Ho; subst o.
    unfold emitted in Hr; simpl in Hr.
    destruct (IH s1 H2) as [Ho' Hr'].
    match goal with
    | |- context [for_each pages ?b s1] =>
        destruct (for_each pages b s1) as [[ys o'] s2]
    end.
    unfold outcome in Ho'; simpl in Ho'.
    unfold emitted in Hr'; simpl in Hr'.
    unfold outcome, emitted; simpl. split; [exact Ho'|].
    now apply Forall2_app.
Qed.

(** X10: [BaseScraper.run], for any subclass and any number of pages:
    when every page that [list_pages] returns is fetched and enumerated
    and every item is extracted, the run ends normally and yields one
    record per item, the records of a page in the order of its items, the
    pages in the order of [list_pages]; an item that several pages
    expose gets a record each time. *)
Theorem run_page_then_item_order
  (self : Scraper) (itemss : list (list string)) (s : nat) :
  Forall2 (fun page items =>
             exists content,
               fetch_page self page = inr content /\
               parse_items self content = inr items)
          (list_pages self) itemss ->
  Forall (succeeds self) (concat itemss) ->
  let r := BaseScraper.run self s in
  outcome r = None /\
  Forall2
    (fun item d => exists s0 s1, extract_content self item s0 = (inr d, s1))
    (concat itemss) (emitted r).
Proof.
  intros Hp Hall.
  apply (pages_loop_all self _ (list_pages self) itemss s Hp).
  eapply Forall_impl; [|exact Hall]. apply succeeds_extracts.
Qed.

Lemma run_page_then_item_order_witness :
  let r := BaseScraper.run Pagination.scraper 0 in
  outcome r = None /\
  Forall2
    (fun item d =>
       exists s0 s1,
         extract_content Pagination.scraper item s0 = (inr d, s1))
    [ "https://example.org/blog/post-1.html";
      "https://example.org/blog/post-1.html";
      "https://example.org/blog/post-3.html" ]
    (emitted r).
Proof.
  apply (run_page_then_item_order Pagination.scraper
           [ [ "https://example.org/blog/post-1.html";
               "https://example.org/blog/post-1.html" ];
             [ "https://example.org/blog/post-3.html" ] ] 0).
  - constructor; [exists "<twice linked>"; split; reflexivity|].
    constructor; [exists "<last page>"; split; reflexivity|].
    constructor.
  - repeat constructor;
      apply (html_succeeds Pagination.blog Site.start "article" "a");
      reflexivity.
Defined.

(** ** Identifiers drawn and records written *)













(** ** json.dumps loses nothing *)

Lemma scan_escape (s rest : string) :
  scan (Json.escape s ++ String "034" rest) = Some (s, rest).
Proof.
  induction s as [|c s IH]; [reflexivity|].
  cbn [Json.escape]. rewrite app_assoc_string.
  destruct c as [[] [] [] [] [] [] [] []];
    match goal with
    | |- context [Json.escape_char ?c] =>
        let v := eval vm_compute in (Json.escape_char c) in
        change (Json.escape_char c) with v
    end;
    cbn -[Json.escape]; rewrite IH; reflexivity.
Qed.

Lemma escape_delimited (s1 s2 t1 t2 : string) :
  (Json.escape s1 ++ String "034" t1)%string
  = (Json.escape s2 ++ String "034" t2)%string ->
  s1 = s2 /\ t1 = t2.
Proof.
  intro H. apply (f_equal scan) in H. rewrite !scan_escape in H.
  injection H as -> ->. now split.
Qed.

Lemma dumps_item_shape (k : string) (v : jvalue) (t : string) :
  (Json.dumps_item (k, v) ++ t)%string
  = String "034"
      (Json.escape k
       ++ String "034" (String ":" (String " " (Json.dumps_value v ++ t))))%string.
Proof.
  unfold Json.dumps_item, Json.dumps_str, Py.dquote. cbn [fst snd].
  cbn [append]. rewrite !app_assoc_string. reflexivity.
Qed.

Lemma dumps_item_delimited (kv1 kv2 : string * jvalue) (t1 t2 : string) :
  (Json.dumps_item kv1 ++ t1)%string = (Json.dumps_item kv2 ++ t2)%string ->
  kv1 = kv2 /\ t1 = t2.
Proof.
  destruct kv1 as [k1 v1], kv2 as [k2 v2]. rewrite !dumps_item_shape.
  intro H. injection H as H. apply escape_delimited in H.
  destruct H as [-> H]. injection H as H.
  destruct v1 as [|s1], v2 as [|s2]; cbn [Json.dumps_value] in H.
  - injection H as ->. now split.
  - discriminate H.
  - discriminate H.
  - unfold Json.dumps_str, Py.dquote in H. cbn [append] in H.
    rewrite !app_assoc_string in H. injection H as H.
    apply escape_delimited in H. destruct H as [-> ->]. now split.
Qed.

Lemma members_cons (kv : string * jvalue) (d : dict) (t : string) :
  (members (kv :: d) ++ t)%string
  = (Json.dumps_item kv
     ++ match d with
        | [] => t
        | _ :: _ => String "," (String " " (members d ++ t))
        end)%string.
Proof.
  unfold members, Py.join. cbn [map String.concat].
  destruct d as [|kv' d]; [reflexivity|].
  cbn [map]. rewrite !app_assoc_string. reflexivity.
Qed.

Lemma members_delimited (d1 d2 : dict) (t1 t2 : string) :
  (members d1 ++ String "}" t1)%string = (members d2 ++ String "}" t2)%string ->
  d1 = d2.
Proof.
  revert d2; induction d1 as [|kv1 d1 IH]; intros [|kv2 d2] H.
  - reflexivity.
  - rewrite members_cons in H. destruct kv2 as [k v].
    rewrite dumps_item_shape in H. discriminate H.
  - rewrite members_cons in H. destruct kv1 as [k v].
    rewrite dumps_item_shape in H. discriminate H.
  - rewrite !members_cons in H. apply dumps_item_delimited in H.
    destruct H as [-> H]. f_equal.
    destruct d1 as [|a d1], d2 as [|b d2]; try discriminate H.
    + reflexivity.
    + injection H as H. now apply IH.
Qed.

(** X12: [json.dumps] writes different records as different lines: a line
    of the output is the line of one record only, with its keys in their
    order, each with its string or its null.  Nothing of a record is
    lost when it is written, whatever its strings contain (quotes,
    backslashes, line breaks, other control characters). *)
Theorem dumps_injective (d1 d2 : dict) :
  Json.dumps d1 = Json.dumps d2 -> d1 = d2.
Proof.
  unfold Json.dumps. fold (members d1) (members d2).
  intro H. injection H as H.
  now apply (members_delimited d1 d2 "" "").
Qed.

Lemma dumps_injective_witness :
  [ ("id", JStr "uuid-0"); ("source", JStr "a.pdf");
    ("content", JStr (String "034" (String "010" "\ "))) ]
  = [ ("id", JStr "uuid-0"); ("source", JStr "a.pdf");
      ("content", JStr (String "034" (String "010" "\ "))) ].
Proof.
  apply (dumps_injective
           [ ("id", JStr "uuid-0"); ("source", JStr "a.pdf");
             ("content", JStr (String "034" (String "010" "\ "))) ]
           [ ("id", JStr "uuid-0"); ("source", JStr "a.pdf");
             ("content", JStr (String "034" (String "010" "\ "))) ]).
  reflexivity.
Defined.

(** Strings that are written alike when they are not escaped, and are
    written apart. *)
Example dumps_tells_apart :
  Json.dumps [("content", JStr (String "034" ", "))]
  <> Json.dumps [("content", JStr ""); ("", JStr "")] /\
  Json.dumps [("title", JNull)] <> Json.dumps [("title", JStr "null")].
Proof. split; intro H; vm_compute in H; discriminate H. Qed.

(** ** A PDF that fails *)




(** ** A listing that fails in scrape_html *)


(** A selector that does not compile, on a listing that answers and on
    one that does not. *)
Example scrape_html_bad_selector :
  scrape_html Site.broken_link Site.start "article" "a[" 0
  = ([], Some (SelectorSyntaxError "article a["), 0) /\
  scrape_html Site.broken_link "https://example.org/gone" "article" "a[" 0
  = ([], Some (RequestException "https://example.org/gone"), 0).
Proof. split; reflexivity. Qed.
